(** * The trusted checksum registry of internal/cli/versions.go

    A shallow embedding of the versions database (schema validation,
    version normalisation, platform keys, look-up, extension, loading and
    bootstrap of the bundled database) and the properties of it that the
    specification states. *)

From Stdlib Require Import ZArith List Ascii String Permutation Lia.
From stdpp Require Import gmap strings list fin_maps pretty.

Local Open Scope string_scope.
Local Open Scope list_scope.
Local Open Scope Z_scope.

(** ** Go strings

    A Go string is a sequence of bytes: [string] over 8-bit [ascii]. *)

Module GoString.

Definition byte (c : ascii) : N := N_of_ascii c.

(** The double quote and the line feed, as one-byte strings. *)
Definition dq : string := String (ascii_of_nat 34) EmptyString.
Definition nl : string := String (ascii_of_nat 10) EmptyString.

(** [strings.TrimSpace] removes leading and trailing white space as
    Unicode defines it ([unicode.IsSpace]).  The six ASCII spaces are
    '\t' '\n' '\v' '\f' '\r' ' '. *)
Definition asciiSpace (c : ascii) : bool :=
  let n := byte c in
  (n =? 9)%N || (n =? 10)%N || (n =? 11)%N || (n =? 12)%N || (n =? 13)%N
  || (n =? 32)%N.

(** The other white-space runes, by their UTF-8 encoding: U+0085 and
    U+00A0 take two bytes; U+1680, U+2000..U+200A, U+2028, U+2029, U+202F,
    U+205F and U+3000 take three.  The decoder of the library accepts
    exactly these byte sequences for these runes (over-long forms decode
    to the error rune, which is not a space). *)
Definition space2 (b0 b1 : N) : bool :=
  (b0 =? 0xC2)%N && ((b1 =? 0x85)%N || (b1 =? 0xA0)%N).

Definition space3 (b0 b1 b2 : N) : bool :=
  ((b0 =? 0xE1)%N && (b1 =? 0x9A)%N && (b2 =? 0x80)%N)
  || ((b0 =? 0xE2)%N && (b1 =? 0x80)%N
      && (((0x80 <=? b2)%N && (b2 <=? 0x8A)%N)
          || (b2 =? 0xA8)%N || (b2 =? 0xA9)%N || (b2 =? 0xAF)%N))
  || ((b0 =? 0xE2)%N && (b1 =? 0x81)%N && (b2 =? 0x9F)%N)
  || ((b0 =? 0xE3)%N && (b1 =? 0x80)%N && (b2 =? 0x80)%N).

(** Drop the white-space runes at the front of [s].  With [back] the
    bytes of [s] are those of the string read from its end, so each rune
    shows its last byte first. *)
Fixpoint trimRunes (back : bool) (s : list ascii) : list ascii :=
  match s with
  | [] => []
  | c0 :: t0 =>
    if asciiSpace c0 then trimRunes back t0 else
    match t0 with
    | [] => s
    | c1 :: t1 =>
      if (if back then space2 (byte c1) (byte c0)
          else space2 (byte c0) (byte c1))
      then trimRunes back t1 else
      match t1 with
      | [] => s
      | c2 :: t2 =>
        if (if back then space3 (byte c2) (byte c1) (byte c0)
            else space3 (byte c0) (byte c1) (byte c2))
        then trimRunes back t2 else s
      end
    end
  end.

Definition TrimSpace (s : string) : string :=
  string_of_list_ascii
    (rev (trimRunes true (rev (trimRunes false (list_ascii_of_string s))))).

(** [strings.CutPrefix] and [strings.TrimPrefix]. *)
Fixpoint CutPrefix (s prefix : string) {struct prefix} : option string :=
  match prefix with
  | EmptyString => Some s
  | String p prefix' =>
    match s with
    | EmptyString => None
    | String c s' => if Ascii.eqb c p then CutPrefix s' prefix' else None
    end
  end.

Definition TrimPrefix (s prefix : string) : string :=
  match CutPrefix s prefix with
  | Some rest => rest
  | None => s
  end.

(** [strings.Join]. *)
Fixpoint Join (elems : list string) (sep : string) : string :=
  match elems with
  | [] => EmptyString
  | [e] => e
  | e :: rest => e +:+ sep +:+ Join rest sep
  end.

(** [strings.Contains]. *)
Fixpoint Contains (s substr : string) : bool :=
  if String.prefix substr s then true
  else
    match s with
    | EmptyString => false
    | String _ s' => Contains s' substr
    end.

(** A string is blank when nothing is left of it after [TrimSpace]. *)
Definition blank (s : string) : bool := String.eqb (TrimSpace s) EmptyString.

(** A byte is plain when it is ASCII and no space. *)
Definition plain (c : ascii) : Prop := (byte c < 128)%N /\ asciiSpace c = false.

(** [%d] of fmt. *)
Definition fmt_d (n : Z) : string := pretty n.

End GoString.
Export GoString.

(** ** Regular expressions

    The two patterns of the source are anchored at both ends, so
    [MatchString] asks whether the whole string is in the language.  The
    classes are ASCII, and a byte above 0x7F is in none of them. *)

Module Regexp.

Inductive regex : Type :=
| Void
| Eps
| Class (p : ascii -> bool)
| Cat (r1 r2 : regex)
| Alt (r1 r2 : regex)
| Star (r : regex).

Definition Plus (r : regex) : regex := Cat r (Star r).

Fixpoint Rep (n : nat) (r : regex) : regex :=
  match n with
  | O => Eps
  | S n' => Cat r (Rep n' r)
  end.

Fixpoint nullable (r : regex) : bool :=
  match r with
  | Void => false
  | Eps => true
  | Class _ => false
  | Cat r1 r2 => nullable r1 && nullable r2
  | Alt r1 r2 => nullable r1 || nullable r2
  | Star _ => true
  end.

Fixpoint deriv (c : ascii) (r : regex) : regex :=
  match r with
  | Void => Void
  | Eps => Void
  | Class p => if p c then Eps else Void
  | Cat r1 r2 =>
    if nullable r1 then Alt (Cat (deriv c r1) r2) (deriv c r2)
    else Cat (deriv c r1) r2
  | Alt r1 r2 => Alt (deriv c r1) (deriv c r2)
  | Star r1 => Cat (deriv c r1) (Star r1)
  end.

Fixpoint matches (r : regex) (s : list ascii) : bool :=
  match s with
  | [] => nullable r
  | c :: s' => matches (deriv c r) s'
  end.

Definition MatchString (r : regex) (s : string) : bool :=
  matches r (list_ascii_of_string s).

(** [\d], [\.] and [[a-f0-9]]. *)
Definition digit (c : ascii) : bool :=
  (48 <=? byte c)%N && (byte c <=? 57)%N.
Definition dot (c : ascii) : bool := (byte c =? 46)%N.
Definition lowerHex (c : ascii) : bool :=
  digit c || ((97 <=? byte c)%N && (byte c <=? 102)%N).

(** The language of a regular expression. *)
Inductive lang : regex -> list ascii -> Prop :=
| lang_eps : lang Eps []
| lang_class p c : p c = true -> lang (Class p) [c]
| lang_cat r1 r2 s1 s2 : lang r1 s1 -> lang r2 s2 -> lang (Cat r1 r2) (s1 ++ s2)
| lang_alt_l r1 r2 s : lang r1 s -> lang (Alt r1 r2) s
| lang_alt_r r1 r2 s : lang r2 s -> lang (Alt r1 r2) s
| lang_star_nil r : lang (Star r) []
| lang_star_cons r s1 s2 :
    lang r s1 -> lang (Star r) s2 -> lang (Star r) (s1 ++ s2).

End Regexp.
Export Regexp.

(** ** The package: constants, types and errors *)

(** [SchemaVersion] is the current schema of the YAML database. *)
Definition SchemaVersion : Z := 1.

Definition amd64Architecture : string := "amd64".
Definition arm64Architecture : string := "arm64".
Definition linuxOS : string := "linux".
Definition darwinOS : string := "darwin".
Definition windowsOS : string := "windows".

(** The cause an operating-system call fails with. *)
Inductive Errno : Type :=
| ENOENT | EACCES | EISDIR | ENOTDIR | EIO | ENOSPC | EROFS.

(** Go's [error] values, as far as the package makes and inspects them:
    [errors.New] and [fmt.Errorf] without [%w] give an [errorString];
    [fmt.Errorf] with [%w] gives a [wrapError] that keeps its cause;
    the os package gives a [PathError]; [Validate] gives a
    [ValidationError]. *)
Inductive error : Type :=
| errorString (msg : string)
| wrapError (msg : string) (cause : error)
| PathError (op path : string) (errno : Errno)
| ValidationError (Errors : list string).

Definition Errno_Error (e : Errno) : string :=
  match e with
  | ENOENT => "no such file or directory"
  | EACCES => "permission denied"
  | EISDIR => "is a directory"
  | ENOTDIR => "not a directory"
  | EIO => "input/output error"
  | ENOSPC => "no space left on device"
  | EROFS => "read-only file system"
  end.

(** The [Error] method. *)
Definition Error (e : error) : string :=
  match e with
  | errorString msg => msg
  | wrapError msg _ => msg
  | PathError op path errno => op +:+ " " +:+ path +:+ ": " +:+ Errno_Error errno
  | ValidationError errs =>
    match errs with
    | [] => "schema validation failed"
    | _ => "schema validation failed: " +:+ Join errs "; "
    end
  end.

(** [errors.Unwrap]. *)
Definition Unwrap (e : error) : option error :=
  match e with
  | wrapError _ cause => Some cause
  | _ => None
  end.

(** [fmt.Errorf (prefix + "%w", cause)]. *)
Definition Errorf_w (prefix : string) (cause : error) : error :=
  wrapError (prefix +:+ Error cause) cause.

(** [os.IsNotExist]. *)
Definition IsNotExist (e : error) : bool :=
  match e with
  | PathError _ _ ENOENT => true
  | _ => false
  end.

Definition ErrUnsupportedVersion : error :=
  errorString "unsupported 1Password CLI version".

(** [semverLike] is [^\d+\.\d+\.\d+$] and [hexSHA256] is [^[a-f0-9]{64}$]. *)
Definition semverLike : regex :=
  Cat (Plus (Class digit))
    (Cat (Class dot)
       (Cat (Plus (Class digit))
          (Cat (Class dot) (Plus (Class digit))))).

Definition hexSHA256 : regex := Rep 64 (Class lowerHex).

(** [NormalizeVersion] strips a leading 'v' if present. *)
Definition NormalizeVersion (v : string) : string :=
  TrimPrefix (TrimSpace v) "v".

(** [ComputePlatformKey] returns the platform key for GOOS/GOARCH, or the
    empty key and an error. *)
Definition ComputePlatformKey (goos goarch : string) : string * option error :=
  let unsupported :=
    (EmptyString,
     Some (errorString ("unsupported platform: " +:+ goos +:+ "_" +:+ goarch))) in
  if String.eqb goos linuxOS then
    if String.eqb goarch amd64Architecture then ("linux_amd64", None)
    else if String.eqb goarch arm64Architecture then ("linux_arm64", None)
    else unsupported
  else if String.eqb goos darwinOS then
    if String.eqb goarch amd64Architecture then ("darwin_amd64", None)
    else if String.eqb goarch arm64Architecture then ("darwin_arm64", None)
    else unsupported
  else if String.eqb goos windowsOS then
    if String.eqb goarch amd64Architecture then ("windows_amd64", None)
    else unsupported
  else unsupported.

(** The pairs of the closed table of [ComputePlatformKey]. *)
Definition supportedPlatforms : list (string * string) :=
  [ ("linux", "amd64"); ("linux", "arm64");
    ("darwin", "amd64"); ("darwin", "arm64");
    ("windows", "amd64") ].

Definition succeeds (p : string * string) : Prop :=
  snd (ComputePlatformKey (fst p) (snd p)) = None.

(** [PlatformChecksums] holds the per-platform SHA256 checksums of one
    version; an absent YAML field is the empty string. *)
Record PlatformChecksums : Type := {
  LinuxAMD64 : string;
  LinuxARM64 : string;
  DarwinAMD64 : string;
  DarwinARM64 : string;
  WindowsAMD64 : string
}.

(** [VersionsDB] is the schema of the YAML database.  The [Versions] map
    of Go may be nil: [None] here. *)
Record VersionsDB : Type := {
  db_SchemaVersion : Z;
  db_GeneratedAt : string;
  db_Versions : option (gmap string PlatformChecksums)
}.

(** The entries of the map; a nil map has none. *)
Definition entries (db : VersionsDB) : gmap string PlatformChecksums :=
  match db_Versions db with
  | Some m => m
  | None => ∅
  end.

(** *** Validate *)

Definition checkPairs (pcs : PlatformChecksums) : list (string * string) :=
  [ ("linux_amd64", LinuxAMD64 pcs);
    ("linux_arm64", LinuxARM64 pcs);
    ("darwin_amd64", DarwinAMD64 pcs);
    ("darwin_arm64", DarwinARM64 pcs);
    ("windows_amd64", WindowsAMD64 pcs) ].

Definition msgSchema (got : Z) : string :=
  "unexpected schema_version=" +:+ fmt_d got
  +:+ " (expected " +:+ fmt_d SchemaVersion +:+ ")".
Definition msgEmpty : string := "versions map is empty".
Definition msgKey (ver : string) : string :=
  "invalid version key '" +:+ ver
  +:+ "' (expected semantic version like 2.31.1)".
Definition msgChecksum (ver name : string) : string :=
  "version " +:+ ver +:+ ": invalid " +:+ name
  +:+ " checksum (must be 64 hex chars)".
Definition msgNone (ver : string) : string :=
  "version " +:+ ver +:+ ": no platform checksums provided".

(** The loop over [checkPairs]: the state is [errs] and [atLeastOne]. *)
Fixpoint checkLoop (ver : string) (pairs : list (string * string))
    (errs : list string) (atLeastOne : bool) : list string * bool :=
  match pairs with
  | [] => (errs, atLeastOne)
  | (name, value) :: rest =>
    if String.eqb (TrimSpace value) EmptyString
    then checkLoop ver rest errs atLeastOne
    else
      checkLoop ver rest
        (if MatchString hexSHA256 value then errs
         else errs ++ [msgChecksum ver name])
        true
  end.

(** The body of the loop over the versions map. *)
Definition validateEntry (errs : list string)
    (e : string * PlatformChecksums) : list string :=
  let '(ver, pcs) := e in
  let norm := NormalizeVersion ver in
  let errs1 :=
    if MatchString semverLike norm then errs else errs ++ [msgKey ver] in
  let '(errs2, atLeastOne) := checkLoop ver (checkPairs pcs) errs1 false in
  if atLeastOne then errs2 else errs2 ++ [msgNone ver].

(** The errors [Validate] collects when the map is ranged over in the
    order [order].  Go leaves the order of a range over a map open. *)
Definition validateErrs (order : list (string * PlatformChecksums))
    (db : VersionsDB) : list string :=
  let errs :=
    if db_SchemaVersion db =? SchemaVersion then []
    else [msgSchema (db_SchemaVersion db)] in
  if Nat.eqb (size (entries db)) 0 then errs ++ [msgEmpty]
  else fold_left validateEntry order errs.

Definition ValidateRange (order : list (string * PlatformChecksums))
    (db : VersionsDB) : option error :=
  match validateErrs order db with
  | [] => None
  | errs => Some (ValidationError errs)
  end.

(** [Validate], ranging in the order of [map_to_list]. *)
Definition Validate (db : VersionsDB) : option error :=
  ValidateRange (map_to_list (entries db)) db.

(** *** GetExpectedSHA; the receiver may be nil *)
Definition GetExpectedSHA (db : option VersionsDB)
    (version platformKey : string) : string * bool :=
  match db with
  | None => (EmptyString, false)
  | Some d =>
    let v := NormalizeVersion version in
    match entries d !! v with
    | None => (EmptyString, false)
    | Some pcs =>
      let field (f : string) := (f, negb (String.eqb f EmptyString)) in
      if String.eqb platformKey "linux_amd64" then field (LinuxAMD64 pcs)
      else if String.eqb platformKey "linux_arm64" then field (LinuxARM64 pcs)
      else if String.eqb platformKey "darwin_amd64" then field (DarwinAMD64 pcs)
      else if String.eqb platformKey "darwin_arm64" then field (DarwinARM64 pcs)
      else if String.eqb platformKey "windows_amd64"
      then field (WindowsAMD64 pcs)
      else (EmptyString, false)
    end
  end.

(** *** ExtendDB: the registry after the call, and the error *)
Definition ExtendDB (db : VersionsDB) (version : string)
    (checksums : PlatformChecksums) : VersionsDB * option error :=
  let db1 :=
    match db_Versions db with
    | None =>
      {| db_SchemaVersion := db_SchemaVersion db;
         db_GeneratedAt := db_GeneratedAt db;
         db_Versions := Some ∅ |}
    | Some _ => db
    end in
  let nv := NormalizeVersion version in
  let tmp :=
    {| db_SchemaVersion := db_SchemaVersion db1;
       db_GeneratedAt := EmptyString;
       db_Versions := Some {[ nv := checksums ]} |} in
  match Validate tmp with
  | Some err => (db1, Some err)
  | None =>
    ({| db_SchemaVersion := db_SchemaVersion db1;
        db_GeneratedAt := db_GeneratedAt db1;
        db_Versions := Some (<[ nv := checksums ]> (entries db1)) |},
     None)
  end.

(** ** The host: environment, clock, libraries and file system *)

(** The ways a file-system call fails other than for a missing file. *)
Inductive Fault : Type :=
| Denied | IOFailure | NoSpace | ReadOnly | NotDirectory.

Definition faultErrno (f : Fault) : Errno :=
  match f with
  | Denied => EACCES
  | IOFailure => EIO
  | NoSpace => ENOSPC
  | ReadOnly => EROFS
  | NotDirectory => ENOTDIR
  end.

(** A reading of the wall clock in UTC. *)
Record Time : Type := {
  year : nat; month : nat; day : nat;
  hour : nat; minute : nat; second : nat
}.

(** What a process is given by its host and its libraries: [runtime.GOOS]
    and [runtime.GOARCH], [os.Getenv] (the empty string for an unset
    variable), [os.UserHomeDir], the value of [time.Now] when the package
    is initialised, [filepath.Join] and [filepath.Dir] of the host,
    [yaml.Unmarshal] into a fresh [VersionsDB], and the faults of the file
    system at each path. *)
Record Host : Type := {
  GOOS : string;
  GOARCH : string;
  Getenv : string -> string;
  UserHomeDir : string * option error;
  initTime : Time;
  filepath_Join : list string -> string;
  filepath_Dir : string -> string;
  yaml_Unmarshal : string -> error + VersionsDB;
  statFault : string -> option Fault;
  mkdirFault : string -> option Fault;
  writeFault : string -> option Fault;
  readFault : string -> option Fault
}.

(** The calls that change the file system, as they are made. *)
Inductive Event : Type :=
| EvMkdirAll (dir : string) (perm : N)
| EvWriteFile (path content : string) (perm : N).

(** The file system: the regular files with their content, the
    directories, and the log of the changing calls made so far. *)
Record FS : Type := {
  files : gmap string string;
  dirs : gset string;
  log : list Event
}.

Definition os_Stat (h : Host) (fs : FS) (path : string) : option error :=
  match statFault h path with
  | Some f => Some (PathError "stat" path (faultErrno f))
  | None =>
    match files fs !! path with
    | Some _ => None
    | None =>
      if decide (path ∈ dirs fs) then None
      else Some (PathError "stat" path ENOENT)
    end
  end.

(** [os.MkdirAll].  The model records the directory that is named; the
    missing ancestors that the call creates with it are not tracked, and
    a call that fails is taken to leave the directories as they were. *)
Definition os_MkdirAll (h : Host) (fs : FS) (dir : string) (perm : N)
    : FS * option error :=
  let fs1 :=
    {| files := files fs; dirs := dirs fs;
       log := log fs ++ [EvMkdirAll dir perm] |} in
  match mkdirFault h dir with
  | Some f => (fs1, Some (PathError "mkdir" dir (faultErrno f)))
  | None =>
    match files fs !! dir with
    | Some _ => (fs1, Some (PathError "mkdir" dir ENOTDIR))
    | None =>
      ({| files := files fs1; dirs := {[ dir ]} ∪ dirs fs1; log := log fs1 |},
       None)
    end
  end.

(** [os.WriteFile].  The faults of the model are failures to open the
    file, which leave the files as they were; a failure after the file has
    been created, which leaves it truncated or partly written, is not
    among them. *)
Definition os_WriteFile (h : Host) (fs : FS) (path content : string)
    (perm : N) : FS * option error :=
  let fs1 :=
    {| files := files fs; dirs := dirs fs;
       log := log fs ++ [EvWriteFile path content perm] |} in
  match writeFault h path with
  | Some f => (fs1, Some (PathError "open" path (faultErrno f)))
  | None =>
    if decide (path ∈ dirs fs) then (fs1, Some (PathError "open" path EISDIR))
    else
      ({| files := <[ path := content ]> (files fs1);
          dirs := dirs fs1; log := log fs1 |},
       None)
  end.

Definition os_ReadFile (h : Host) (fs : FS) (path : string)
    : error + string :=
  match readFault h path with
  | Some f => inl (PathError "open" path (faultErrno f))
  | None =>
    match files fs !! path with
    | Some content => inr content
    | None =>
      if decide (path ∈ dirs fs) then inl (PathError "read" path EISDIR)
      else inl (PathError "open" path ENOENT)
    end
  end.

(** *** The bundled database *)

(** Two and four digits, zero-padded. *)
Definition pad2 (n : nat) : string :=
  (if (n <? 10)%nat then "0" else EmptyString) +:+ pretty n.
Definition pad4 (n : nat) : string :=
  (if (n <? 10)%nat then "000"
   else if (n <? 100)%nat then "00"
   else if (n <? 1000)%nat then "0" else EmptyString) +:+ pretty n.

(** [t.UTC().Format(time.RFC3339)]. *)
Definition RFC3339 (t : Time) : string :=
  pad4 (year t) +:+ "-" +:+ pad2 (month t) +:+ "-" +:+ pad2 (day t)
  +:+ "T" +:+ pad2 (hour t) +:+ ":" +:+ pad2 (minute t) +:+ ":"
  +:+ pad2 (second t) +:+ "Z".

(** [%q] of fmt, for the printable ASCII text it is given here: the text
    in double quotes, a backslash before a double quote or a backslash. *)
Fixpoint escape (s : string) : string :=
  match s with
  | EmptyString => EmptyString
  | String c s' =>
    if ((byte c =? 34)%N || (byte c =? 92)%N)%bool
    then String (ascii_of_nat 92) (String c (escape s'))
    else String c (escape s')
  end.
Definition fmt_q (s : string) : string := dq +:+ escape s +:+ dq.

(** [bundledVersionsYAML] is computed once, when the package is
    initialised, from the clock read then. *)
Definition bundledVersionsYAML (now : Time) : string :=
  TrimSpace
    (nl +:+ "schema_version: " +:+ fmt_d SchemaVersion +:+ nl
     +:+ "generated_at: " +:+ fmt_q (RFC3339 now) +:+ nl
     +:+ "versions:" +:+ nl
     +:+ "  " +:+ dq +:+ "2.31.1" +:+ dq +:+ ":" +:+ nl
     +:+ "    linux_amd64: " +:+ dq
     +:+ "0fd8da9c6b6301781f50ef57cebbfd7d42d072777bcb4649ef5b6d360629b876"
     +:+ dq +:+ nl
     +:+ "    linux_arm64: " +:+ dq
     +:+ "47bcd4dbeacefcd01ae8c913e61721ae71ac4f6a0b9150f48467ff719d494ff7"
     +:+ dq +:+ nl
     +:+ "    darwin_amd64: " +:+ dq
     +:+ "019f37e33a6d4f7824cda14eee5e24c2947d58d94ed7dd3b3fc3cbcd644647df"
     +:+ dq +:+ nl
     +:+ "    darwin_arm64: " +:+ dq
     +:+ "71d38ddee25d34a9159b81d8c16844c3869defd7cc1563cc8f216a20439ceba4"
     +:+ dq +:+ nl
     +:+ "    windows_amd64: " +:+ dq
     +:+ "9e54520aa136ecd6bc7082ec719b68f00bd23cb575c6e787d62f34cc44895bbb"
     +:+ dq +:+ nl).

(** The bundled document before and after its time stamp. *)
Definition bundledHead : string :=
  "schema_version: 1" +:+ nl +:+ "generated_at: ".
Definition bundledTail : string :=
  nl +:+ "versions:" +:+ nl
  +:+ "  " +:+ dq +:+ "2.31.1" +:+ dq +:+ ":" +:+ nl
  +:+ "    linux_amd64: " +:+ dq
  +:+ "0fd8da9c6b6301781f50ef57cebbfd7d42d072777bcb4649ef5b6d360629b876"
  +:+ dq +:+ nl
  +:+ "    linux_arm64: " +:+ dq
  +:+ "47bcd4dbeacefcd01ae8c913e61721ae71ac4f6a0b9150f48467ff719d494ff7"
  +:+ dq +:+ nl
  +:+ "    darwin_amd64: " +:+ dq
  +:+ "019f37e33a6d4f7824cda14eee5e24c2947d58d94ed7dd3b3fc3cbcd644647df"
  +:+ dq +:+ nl
  +:+ "    darwin_arm64: " +:+ dq
  +:+ "71d38ddee25d34a9159b81d8c16844c3869defd7cc1563cc8f216a20439ceba4"
  +:+ dq +:+ nl
  +:+ "    windows_amd64: " +:+ dq
  +:+ "9e54520aa136ecd6bc7082ec719b68f00bd23cb575c6e787d62f34cc44895bbb"
  +:+ dq.

(** *** Paths *)

(** The modes 0o700 and 0o600. *)
Definition perm0700 : N := 448.
Definition perm0600 : N := 384.

Definition defaultVersionsFilename : string := "1password-cli-versions.yaml".
Definition envVersionsFile : string := "OP_SECRETS_ACTION_VERSIONS_FILE".
Definition defaultSubdir (h : Host) : string :=
  filepath_Join h ["1password-secrets"; "action"].

Definition DefaultConfigDir (h : Host) : string * option error :=
  if String.eqb (GOOS h) windowsOS then
    let v := Getenv h "APPDATA" in
    if negb (String.eqb (TrimSpace v) EmptyString) then (v, None)
    else
      match UserHomeDir h with
      | (home, None) => (filepath_Join h [home; "AppData"; "Roaming"], None)
      | (_, Some _) =>
        (EmptyString,
         Some (errorString
                 "unable to determine APPDATA or user home directory"))
      end
  else
    let v := Getenv h "XDG_CONFIG_HOME" in
    if negb (String.eqb (TrimSpace v) EmptyString) then (v, None)
    else
      match UserHomeDir h with
      | (home, None) => (filepath_Join h [home; ".config"], None)
      | (_, Some _) =>
        (EmptyString,
         Some (errorString
                 "unable to determine config directory (XDG_CONFIG_HOME or home)"))
      end.

Definition DefaultDBPath (h : Host) : string * option error :=
  match DefaultConfigDir h with
  | (_, Some err) => (EmptyString, Some err)
  | (cfgRoot, None) =>
    (filepath_Join h [cfgRoot; defaultSubdir h; defaultVersionsFilename], None)
  end.

(** *** WriteBundledDBIfMissing: the file system after the call, and the
    error *)
Definition WriteBundledDBIfMissing (h : Host) (fs : FS) : FS * option error :=
  match DefaultDBPath h with
  | (_, Some err) => (fs, Some err)
  | (path, None) =>
    match os_Stat h fs path with
    | None => (fs, None)
    | Some err =>
      if negb (IsNotExist err) then (fs, Some err)
      else
        let dir := filepath_Dir h path in
        match os_MkdirAll h fs dir perm0700 with
        | (fs1, Some mkErr) =>
          (fs1,
           Some (Errorf_w ("failed to create config directory " +:+ dir +:+ ": ")
                   mkErr))
        | (fs1, None) =>
          match yaml_Unmarshal h (bundledVersionsYAML (initTime h)) with
          | inl err =>
            (fs1, Some (Errorf_w "bundled versions DB is invalid YAML: " err))
          | inr db =>
            match Validate db with
            | Some err =>
              (fs1,
               Some (Errorf_w "bundled versions DB failed validation: " err))
            | None =>
              match os_WriteFile h fs1 path
                      (bundledVersionsYAML (initTime h)) perm0600 with
              | (fs2, Some writeErr) =>
                (fs2,
                 Some (Errorf_w
                         ("failed to write versions DB to " +:+ path +:+ ": ")
                         writeErr))
              | (fs2, None) => (fs2, None)
              end
            end
          end
        end
    end
  end.

(** *** loadDBFromPath: the registry, or nil and the error *)
Definition loadDBFromPath (h : Host) (fs : FS) (path : string)
    : option VersionsDB * option error :=
  match os_ReadFile h fs path with
  | inl err =>
    (None,
     Some (Errorf_w ("failed to read versions DB at " +:+ path +:+ ": ") err))
  | inr content =>
    match yaml_Unmarshal h content with
    | inl err =>
      (None,
       Some (Errorf_w
               ("failed to parse YAML versions DB at " +:+ path +:+ ": ") err))
    | inr db =>
      match Validate db with
      | Some err => (None, Some err)
      | None => (Some db, None)
      end
    end
  end.

(** *** LoadOrInstallDB and ExpectedSHAFromDB *)
Definition LoadOrInstallDB (h : Host) (fs : FS)
    : FS * (option VersionsDB * string * option error) :=
  let p := TrimSpace (Getenv h envVersionsFile) in
  if negb (String.eqb p EmptyString) then
    match loadDBFromPath h fs p with
    | (_, Some err) => (fs, (None, p, Some err))
    | (db, None) => (fs, (db, p, None))
    end
  else
    match DefaultDBPath h with
    | (_, Some err) => (fs, (None, EmptyString, Some err))
    | (defaultPath, None) =>
      let load (fs' : FS) :=
        match loadDBFromPath h fs' defaultPath with
        | (_, Some err) => (fs', (None, defaultPath, Some err))
        | (db, None) => (fs', (db, defaultPath, None))
        end in
      match os_Stat h fs defaultPath with
      | None => load fs
      | Some statErr =>
        if IsNotExist statErr then
          match WriteBundledDBIfMissing h fs with
          | (fs1, Some bundleErr) =>
            (fs1,
             (None, defaultPath,
              Some (Errorf_w "failed to install bundled versions DB: "
                      bundleErr)))
          | (fs1, None) => load fs1
          end
        else
          (fs,
           (None, defaultPath,
            Some (Errorf_w "failed to stat versions DB: " statErr)))
      end
    end.

Definition ExpectedSHAFromDB (h : Host) (fs : FS) (version : string)
    : FS * (string * option error) :=
  match LoadOrInstallDB h fs with
  | (fs1, (_, _, Some err)) => (fs1, (EmptyString, Some err))
  | (fs1, (db, _, None)) =>
    match ComputePlatformKey (GOOS h) (GOARCH h) with
    | (_, Some err) => (fs1, (EmptyString, Some err))
    | (pk, None) =>
      let '(sha, ok) := GetExpectedSHA db version pk in
      if (negb ok || String.eqb (TrimSpace sha) EmptyString)%bool then
        (fs1,
         (EmptyString,
          Some (wrapError
                  (Error ErrUnsupportedVersion +:+ ": "
                   +:+ NormalizeVersion version)
                  ErrUnsupportedVersion)))
      else (fs1, (sha, None))
    end
  end.

(** ** The invariants of a registry document

    The invariants are those of the specification.  Two of them can be
    read in two ways, to the letter and as the code reads them: which
    form of a key must be a semantic version, and when a checksum field
    counts as populated. *)

(** The five platform keys. *)
Definition platformKeys : list string :=
  [ "linux_amd64"; "linux_arm64"; "darwin_amd64"; "darwin_arm64";
    "windows_amd64" ].

(** One violation of one invariant: a wrong schema_version, an empty
    versions map, a malformed version key, a malformed checksum field that
    is populated, an entry with no populated checksum. *)
Inductive Violation : Type :=
| WrongSchemaVersion (got : Z)
| EmptyVersionsMap
| MalformedVersionKey (ver : string)
| MalformedChecksum (ver name : string)
| NoChecksums (ver : string).

(** The line [Validate] reports a violation with. *)
Definition message (v : Violation) : string :=
  match v with
  | WrongSchemaVersion got => msgSchema got
  | EmptyVersionsMap => msgEmpty
  | MalformedVersionKey ver => msgKey ver
  | MalformedChecksum ver name => msgChecksum ver name
  | NoChecksums ver => msgNone ver
  end.

(** A field is populated: read literally, when it is not the empty
    string; as the code reads it, when it is not blank. *)
Definition nonEmpty (s : string) : bool := negb (String.eqb s EmptyString).
Definition nonBlank (s : string) : bool := negb (blank s).

(** A key is malformed, as the code reads it, when what
    [NormalizeVersion] makes of it (surrounding white space trimmed, then
    one leading 'v' stripped) is no semantic version.  The reading to the
    letter is [literalKeyViolations] below. *)
Definition keyViolations (e : string * PlatformChecksums) : list Violation :=
  if MatchString semverLike (NormalizeVersion (fst e)) then []
  else [MalformedVersionKey (fst e)].

Definition checksumViolations (populated : string -> bool)
    (e : string * PlatformChecksums) : list Violation :=
  flat_map
    (fun p : string * string =>
       if (populated (snd p) && negb (MatchString hexSHA256 (snd p)))%bool
       then [MalformedChecksum (fst e) (fst p)] else [])
    (checkPairs (snd e)).

Definition noneViolations (populated : string -> bool)
    (e : string * PlatformChecksums) : list Violation :=
  if existsb (fun p : string * string => populated (snd p)) (checkPairs (snd e))
  then [] else [NoChecksums (fst e)].

(** All the violations of a document, invariant by invariant, with the
    keys read as the code reads them; [populated] says when a field counts
    as populated. *)
Definition violations (populated : string -> bool) (db : VersionsDB)
    : list Violation :=
  let es := map_to_list (entries db) in
  (if db_SchemaVersion db =? SchemaVersion then []
   else [WrongSchemaVersion (db_SchemaVersion db)])
  ++ (if decide (entries db = ∅) then [EmptyVersionsMap] else [])
  ++ flat_map keyViolations es
  ++ flat_map (checksumViolations populated) es
  ++ flat_map (noneViolations populated) es.

(** The violations of one entry, as the loop of [Validate] meets them. *)
Definition entryViolations (e : string * PlatformChecksums) : list Violation :=
  keyViolations e ++ checksumViolations nonBlank e ++ noneViolations nonBlank e.

(** ** Sample documents *)

Definition noChecksums : PlatformChecksums :=
  {| LinuxAMD64 := EmptyString; LinuxARM64 := EmptyString;
     DarwinAMD64 := EmptyString; DarwinARM64 := EmptyString;
     WindowsAMD64 := EmptyString |}.

(** The entry of the bundled database. *)
Definition bundledChecksums : PlatformChecksums :=
  {| LinuxAMD64 :=
       "0fd8da9c6b6301781f50ef57cebbfd7d42d072777bcb4649ef5b6d360629b876";
     LinuxARM64 :=
       "47bcd4dbeacefcd01ae8c913e61721ae71ac4f6a0b9150f48467ff719d494ff7";
     DarwinAMD64 :=
       "019f37e33a6d4f7824cda14eee5e24c2947d58d94ed7dd3b3fc3cbcd644647df";
     DarwinARM64 :=
       "71d38ddee25d34a9159b81d8c16844c3869defd7cc1563cc8f216a20439ceba4";
     WindowsAMD64 :=
       "9e54520aa136ecd6bc7082ec719b68f00bd23cb575c6e787d62f34cc44895bbb" |}.

(** The registry the bundled document describes. *)
Definition bundledDB (now : Time) : VersionsDB :=
  {| db_SchemaVersion := SchemaVersion;
     db_GeneratedAt := RFC3339 now;
     db_Versions := Some {[ "2.31.1" := bundledChecksums ]} |}.

Definition noon : Time :=
  {| year := 2025; month := 7; day := 28;
     hour := 12; minute := 0; second := 0 |}.
Definition noonAndOneSecond : Time :=
  {| year := 2025; month := 7; day := 28;
     hour := 12; minute := 0; second := 1 |}.

(** The same entry authored under the key "v2.31.1". *)
Definition vKeyedDB : VersionsDB :=
  {| db_SchemaVersion := SchemaVersion;
     db_GeneratedAt := EmptyString;
     db_Versions := Some {[ "v2.31.1" := bundledChecksums ]} |}.

(** An entry with one good checksum and one field holding a single
    space. *)
Definition spaceChecksums : PlatformChecksums :=
  {| LinuxAMD64 := LinuxAMD64 bundledChecksums; LinuxARM64 := " ";
     DarwinAMD64 := EmptyString; DarwinARM64 := EmptyString;
     WindowsAMD64 := EmptyString |}.
Definition spaceDB : VersionsDB :=
  {| db_SchemaVersion := SchemaVersion;
     db_GeneratedAt := EmptyString;
     db_Versions := Some {[ "2.31.1" := spaceChecksums ]} |}.

(** A document with a violation of four of the invariants. *)
Definition brokenDB : VersionsDB :=
  {| db_SchemaVersion := 2;
     db_GeneratedAt := EmptyString;
     db_Versions :=
       Some {[ "2.31" := bundledChecksums;
               "9.9.9" := noChecksums;
               "3.0.0" :=
                 {| LinuxAMD64 := "XYZ"; LinuxARM64 := EmptyString;
                    DarwinAMD64 := EmptyString; DarwinARM64 := EmptyString;
                    WindowsAMD64 := EmptyString |} ]} |}.

(** A registry value whose map is nil, and a record with a bad checksum
    for one platform. *)
Definition nilMapDB : VersionsDB :=
  {| db_SchemaVersion := SchemaVersion;
     db_GeneratedAt := EmptyString;
     db_Versions := None |}.
Definition badChecksums : PlatformChecksums :=
  {| LinuxAMD64 := LinuxAMD64 bundledChecksums; LinuxARM64 := "not-a-digest";
     DarwinAMD64 := EmptyString; DarwinARM64 := EmptyString;
     WindowsAMD64 := EmptyString |}.

(** ** What a call of the bootstrap does, read off the log *)

(** The events a call adds to the log. *)
Definition newEvents (h : Host) (fs : FS) : list Event :=
  drop (length (log fs)) (log (fst (WriteBundledDBIfMissing h fs))).

(** The contents the call hands to [os.WriteFile]. *)
Definition written (h : Host) (fs : FS) : list string :=
  flat_map
    (fun ev => match ev with
               | EvWriteFile _ content _ => [content]
               | EvMkdirAll _ _ => []
               end)
    (newEvents h fs).

(** The outcome of the defensive check of the bundled document. *)
Definition bundleCheck (h : Host) : option error :=
  match yaml_Unmarshal h (bundledVersionsYAML (initTime h)) with
  | inl err => Some (Errorf_w "bundled versions DB is invalid YAML: " err)
  | inr db =>
    match Validate db with
    | Some err => Some (Errorf_w "bundled versions DB failed validation: " err)
    | None => None
    end
  end.

(** The target of the bootstrap is there, as [os.Stat] sees it. *)
Definition targetExists (h : Host) (fs : FS) : bool :=
  match DefaultDBPath h with
  | (_, Some _) => false
  | (path, None) =>
    match os_Stat h fs path with
    | None => true
    | Some _ => false
    end
  end.

(** ** A sample host *)

(** [filepath.Join] and [filepath.Dir] of a Unix host, for clean
    elements and paths: the elements that are not empty, joined by a
    slash; the path up to its last slash. *)
Definition unixJoin (elems : list string) : string :=
  Join (List.filter (fun e => negb (String.eqb e EmptyString)) elems) "/".

Fixpoint dropElem (rpath : list ascii) : option (list ascii) :=
  match rpath with
  | [] => None
  | c :: t => if Ascii.eqb c "/"%char then Some t else dropElem t
  end.

Definition unixDir (path : string) : string :=
  match dropElem (rev (list_ascii_of_string path)) with
  | None => "."
  | Some [] => "/"
  | Some rdir => string_of_list_ascii (rev rdir)
  end.

(** A parser that knows the documents of a table, and returns for each
    what [yaml.Unmarshal] returns for it. *)
Fixpoint tableUnmarshal (docs : list (string * VersionsDB)) (content : string)
    : error + VersionsDB :=
  match docs with
  | [] => inl (errorString "yaml: unmarshal errors")
  | (doc, db) :: rest =>
    if String.eqb content doc then inr db else tableUnmarshal rest content
  end.

(** A document with schema_version 2 and the registry it describes. *)
Definition schema2Doc : string :=
  "schema_version: 2" +:+ nl +:+ "versions:" +:+ nl
  +:+ "  " +:+ dq +:+ "2.31.1" +:+ dq +:+ ":" +:+ nl
  +:+ "    linux_amd64: " +:+ dq +:+ LinuxAMD64 bundledChecksums +:+ dq.
Definition schema2DB : VersionsDB :=
  {| db_SchemaVersion := 2;
     db_GeneratedAt := EmptyString;
     db_Versions :=
       Some {[ "2.31.1" :=
                 {| LinuxAMD64 := LinuxAMD64 bundledChecksums;
                    LinuxARM64 := EmptyString; DarwinAMD64 := EmptyString;
                    DarwinARM64 := EmptyString;
                    WindowsAMD64 := EmptyString |} ]} |}.

Definition sampleDocs : list (string * VersionsDB) :=
  [ (bundledVersionsYAML noon, bundledDB noon);
    (bundledVersionsYAML noonAndOneSecond, bundledDB noonAndOneSecond);
    (schema2Doc, schema2DB) ].

(** A Linux host without faults, its package initialised at [t], whose
    parser knows the documents [docs]. *)
Definition hostWith (t : Time) (docs : list (string * VersionsDB)) : Host :=
  {| GOOS := "linux";
     GOARCH := "amd64";
     Getenv := fun _ => EmptyString;
     UserHomeDir := ("/home/runner", None);
     initTime := t;
     filepath_Join := unixJoin;
     filepath_Dir := unixDir;
     yaml_Unmarshal := tableUnmarshal docs;
     statFault := fun _ => None;
     mkdirFault := fun _ => None;
     writeFault := fun _ => None;
     readFault := fun _ => None |}.

Definition sampleHost (t : Time) : Host := hostWith t sampleDocs.

(** A host on which the bundled document does not parse. *)
Definition corruptHost : Host := hostWith noon [].

Definition samplePath : string :=
  "/home/runner/.config/1password-secrets/action/1password-cli-versions.yaml".

Definition emptyFS : FS := {| files := ∅; dirs := ∅; log := [] |}.

(** A file system that holds a registry file of the user at the default
    path, and one that holds the schema_version 2 document. *)
Definition userFS : FS :=
  {| files := {[ samplePath := bundledVersionsYAML noon ]};
     dirs := {[ "/home/runner/.config/1password-secrets/action" ]};
     log := [] |}.
Definition schema2Path : string := "/etc/op/versions.yaml".
Definition schema2FS : FS :=
  {| files := {[ schema2Path := schema2Doc ]}; dirs := ∅; log := [] |}.

(** The sample host with the override variable set to a path where
    nothing is. *)
Definition overrideHost : Host :=
  {| GOOS := "linux";
     GOARCH := "arm64";
     Getenv := fun name =>
       if String.eqb name envVersionsFile then "/opt/op/versions.yaml"
       else EmptyString;
     UserHomeDir := ("/home/runner", None);
     initTime := noon;
     filepath_Join := unixJoin;
     filepath_Dir := unixDir;
     yaml_Unmarshal := tableUnmarshal sampleDocs;
     statFault := fun _ => None;
     mkdirFault := fun _ => None;
     writeFault := fun _ => None;
     readFault := fun _ => None |}.


(** ** What a valid registry is, entry by entry *)

(** An entry is valid: its key normalises to a semantic version, every
    field that is not blank is a digest, and some field is not blank. *)
Definition validEntry (e : string * PlatformChecksums) : Prop :=
  MatchString semverLike (NormalizeVersion (fst e)) = true /\
  (forall p, In p (checkPairs (snd e)) -> blank (snd p) = false ->
     MatchString hexSHA256 (snd p) = true) /\
  (exists p, In p (checkPairs (snd e)) /\ blank (snd p) = false).

Definition wellFormed (db : VersionsDB) : Prop :=
  db_SchemaVersion db = SchemaVersion /\
  entries db <> ∅ /\
  forall ver pcs, entries db !! ver = Some pcs -> validEntry (ver, pcs).

(** A text of digits, and a text of lower-case hexadecimal digits. *)
Definition digits (s : list ascii) : Prop :=
  s <> [] /\ Forall (fun c => digit c = true) s.

(** The sample host with faults of the file system: the same fault, if
    any, at every path for each of the four calls. *)
Definition faultyHost (sf mf wf rf : option Fault) : Host :=
  {| GOOS := "linux";
     GOARCH := "amd64";
     Getenv := fun _ => EmptyString;
     UserHomeDir := ("/home/runner", None);
     initTime := noon;
     filepath_Join := unixJoin;
     filepath_Dir := unixDir;
     yaml_Unmarshal := tableUnmarshal sampleDocs;
     statFault := fun _ => sf;
     mkdirFault := fun _ => mf;
     writeFault := fun _ => wf;
     readFault := fun _ => rf |}.

(** The sample host on a platform outside the table. *)
Definition riscvHost : Host :=
  {| GOOS := "linux";
     GOARCH := "riscv64";
     Getenv := fun _ => EmptyString;
     UserHomeDir := ("/home/runner", None);
     initTime := noon;
     filepath_Join := unixJoin;
     filepath_Dir := unixDir;
     yaml_Unmarshal := tableUnmarshal sampleDocs;
     statFault := fun _ => None;
     mkdirFault := fun _ => None;
     writeFault := fun _ => None;
     readFault := fun _ => None |}.


(** ** The invariants read to the letter *)

(** The normalisation that invariant 3 names: an optional leading 'v' is
    stripped, and nothing else is done. *)
Definition stripV (v : string) : string := TrimPrefix v "v".

Definition literalKeyViolations (e : string * PlatformChecksums)
    : list Violation :=
  if MatchString semverLike (stripV (fst e)) then []
  else [MalformedVersionKey (fst e)].

(** The violations of a document when a key is normalised by [stripV]
    and a field is populated when it is not the empty string. *)
Definition literalViolations (db : VersionsDB) : list Violation :=
  let es := map_to_list (entries db) in
  (if db_SchemaVersion db =? SchemaVersion then []
   else [WrongSchemaVersion (db_SchemaVersion db)])
  ++ (if decide (entries db = ∅) then [EmptyVersionsMap] else [])
  ++ flat_map literalKeyViolations es
  ++ flat_map (checksumViolations nonEmpty) es
  ++ flat_map (noneViolations nonEmpty) es.

(** The bundled entry under a key with a space on either side. *)
Definition spacedKeyDB : VersionsDB :=
  {| db_SchemaVersion := SchemaVersion;
     db_GeneratedAt := EmptyString;
     db_Versions := Some {[ " 2.31.1 " := bundledChecksums ]} |}.
(** * Properties *)

(** ** Strings and patterns *)

Lemma nullable_lang r : nullable r = true -> lang r [].
Proof.
  induction r; simpl; intros Hn; try discriminate.
  - constructor.
  - apply andb_prop in Hn as [H1 H2].
    change (@nil ascii) with (@nil ascii ++ []). constructor; auto.
  - apply orb_prop in Hn as [H|H]; [apply lang_alt_l | apply lang_alt_r]; auto.
  - constructor.
Qed.

Lemma deriv_lang r : forall c s, lang (deriv c r) s -> lang r (c :: s).
Proof.
  induction r; simpl; intros c s H.
  - inversion H.
  - inversion H.
  - destruct (p c) eqn:Hp; inversion H; subst. now constructor.
  - destruct (nullable r1) eqn:Hn.
    + inversion H as [| | | ? ? ? Hl | ? ? ? Hr | |]; subst.
      * inversion Hl; subst.
        change (c :: s1 ++ s2) with ((c :: s1) ++ s2). constructor; auto.
      * change (c :: s) with ([] ++ c :: s).
        constructor; [now apply nullable_lang | auto].
    + inversion H; subst.
      change (c :: s1 ++ s2) with ((c :: s1) ++ s2). constructor; auto.
  - inversion H; subst; [apply lang_alt_l | apply lang_alt_r]; auto.
  - inversion H; subst.
    change (c :: s1 ++ s2) with ((c :: s1) ++ s2). constructor; auto.
Qed.

Lemma matches_lang s : forall r, matches r s = true -> lang r s.
Proof.
  induction s as [|c s IH]; simpl; intros r H.
  - now apply nullable_lang.
  - apply deriv_lang. now apply IH.
Qed.

Lemma lang_star_class p s : lang (Star (Class p)) s -> Forall (fun c => p c = true) s.
Proof.
  remember (Star (Class p)) as r eqn:Hr. intros H.
  induction H; try discriminate.
  - constructor.
  - injection Hr as ->. inversion H; subst. simpl.
    constructor; auto.
Qed.

Lemma lang_plus_class p s :
  lang (Plus (Class p)) s ->
  exists c t, s = c :: t /\ p c = true /\ Forall (fun c => p c = true) t.
Proof.
  unfold Plus. intros H. inversion H as [| |? ? ? ? H1 H2| | | |]; subst.
  inversion H1; subst. simpl. eexists _, _. split; [reflexivity|].
  split; [assumption|]. now apply lang_star_class.
Qed.

(** A string of [semverLike] begins with a digit and ends with one. *)
Lemma semverLike_shape s :
  MatchString semverLike s = true ->
  exists c t i x,
    list_ascii_of_string s = c :: t /\ list_ascii_of_string s = i ++ [x]
    /\ digit c = true /\ digit x = true.
Proof.
  unfold MatchString, semverLike. intros H. apply matches_lang in H.
  inversion H as [| |? ? a r1 Ha Hr1| | | |]; subst.
  inversion Hr1 as [| |? ? d1 r2 Hd1 Hr2| | | |]; subst.
  inversion Hr2 as [| |? ? b r3 Hb Hr3| | | |]; subst.
  inversion Hr3 as [| |? ? d2 e He Hr4| | | |]; subst.
  clear H H2 Hr1 Hr2 Hr3 Hd1 Hb He.
  apply lang_plus_class in Ha as (c & t & -> & Hc & _).
  apply lang_plus_class in Hr4 as (c3 & t3 & -> & Hc3 & Ht3).
  destruct (exists_last (l := c3 :: t3)) as (i & x & Hix); [discriminate|].
  exists c, (t ++ d1 ++ b ++ d2 ++ c3 :: t3), ((c :: t) ++ d1 ++ b ++ d2 ++ i), x.
  rewrite Hix. split; [reflexivity|].
  split; [now rewrite <- !app_assoc|]. split; [assumption|].
  assert (HF : Forall (fun c => digit c = true) (c3 :: t3)) by now constructor.
  rewrite Hix in HF. apply Forall_app in HF as [_ HF]. now inversion HF.
Qed.

Ltac bool_cases :=
  repeat match goal with
    | |- context [(?a =? ?b)%N] => destruct (N.eqb_spec a b)
    | |- context [(?a <=? ?b)%N] => destruct (N.leb_spec a b)
    end; simpl; try reflexivity; try lia.

Lemma eqb_ascii_high b k : (b < 128)%N -> (128 <=? k)%N = true -> (b =? k)%N = false.
Proof. intros H Hk. apply N.leb_le in Hk. apply N.eqb_neq. lia. Qed.

Lemma leb_ascii_high b k : (b < 128)%N -> (128 <=? k)%N = true -> (k <=? b)%N = false.
Proof. intros H Hk. apply N.leb_le in Hk. apply N.leb_gt. lia. Qed.

Ltac ascii_high H :=
  rewrite ?(eqb_ascii_high _ _ H), ?(leb_ascii_high _ _ H) by reflexivity;
  rewrite ?andb_false_r, ?orb_false_r; reflexivity.

Lemma space2_ascii_l b0 b1 : (b0 < 128)%N -> space2 b0 b1 = false.
Proof. intros H. unfold space2. ascii_high H. Qed.

Lemma space2_ascii_r b0 b1 : (b1 < 128)%N -> space2 b0 b1 = false.
Proof. intros H. unfold space2. ascii_high H. Qed.

Lemma space3_ascii_l b0 b1 b2 : (b0 < 128)%N -> space3 b0 b1 b2 = false.
Proof. intros H. unfold space3. ascii_high H. Qed.

Lemma space3_ascii_r b0 b1 b2 : (b2 < 128)%N -> space3 b0 b1 b2 = false.
Proof. intros H. unfold space3. ascii_high H. Qed.

Lemma trimRunes_plain back c l : plain c -> trimRunes back (c :: l) = c :: l.
Proof.
  intros [Hlt Hsp]. simpl. rewrite Hsp.
  destruct l as [|c1 [|c2 l]]; try reflexivity; destruct back;
    rewrite ?space2_ascii_l, ?space2_ascii_r, ?space3_ascii_l,
      ?space3_ascii_r by assumption; reflexivity.
Qed.

Lemma TrimSpace_plain s c t i x :
  list_ascii_of_string s = c :: t -> list_ascii_of_string s = i ++ [x] ->
  plain c -> plain x -> TrimSpace s = s.
Proof.
  intros Hs1 Hs2 Hc Hx. unfold TrimSpace.
  rewrite Hs1, trimRunes_plain by assumption.
  rewrite <- Hs1, Hs2. rewrite rev_unit, trimRunes_plain by assumption.
  change (x :: rev i) with (rev [x] ++ rev i).
  rewrite <- rev_app_distr, rev_involutive, <- Hs2.
  apply string_of_list_ascii_of_string.
Qed.

Lemma digit_plain c : digit c = true -> plain c.
Proof.
  unfold digit, plain, asciiSpace. intros H.
  apply andb_prop in H as [H1 H2].
  apply N.leb_le in H1. apply N.leb_le in H2. split; [lia|].
  bool_cases.
Qed.

Lemma NormalizeVersion_semver v :
  MatchString semverLike v = true -> NormalizeVersion v = v.
Proof.
  intros H. destruct (semverLike_shape v H) as (c & t & i & x & H1 & H2 & Hc & Hx).
  unfold NormalizeVersion.
  rewrite (TrimSpace_plain v c t i x) by auto using digit_plain.
  destruct v as [|c' v']; [reflexivity|].
  simpl in H1. injection H1 as -> _.
  unfold TrimPrefix. simpl.
  destruct (Ascii.eqb_spec c "v"%char) as [->|]; [discriminate Hc | reflexivity].
Qed.

Lemma NormalizeVersion_v_semver v :
  MatchString semverLike v = true -> NormalizeVersion ("v" +:+ v) = v.
Proof.
  intros H. destruct (semverLike_shape v H) as (c & t & i & x & H1 & H2 & Hc & Hx).
  unfold NormalizeVersion.
  rewrite (TrimSpace_plain ("v" +:+ v) "v"%char (c :: t) ("v"%char :: i) x).
  - unfold TrimPrefix. simpl. reflexivity.
  - change ("v"%char :: list_ascii_of_string v = "v"%char :: c :: t).
    now rewrite H1.
  - change ("v"%char :: list_ascii_of_string v = "v"%char :: i ++ [x]).
    now rewrite H2.
  - split; [reflexivity | reflexivity].
  - now apply digit_plain.
Qed.

(** ** The platform table *)

Lemma supported_succeeds p : In p supportedPlatforms -> succeeds p.
Proof.
  unfold supportedPlatforms. simpl.
  intros H. repeat (destruct H as [<-|H]; [reflexivity|]). destruct H.
Qed.

Lemma succeeds_supported p : succeeds p -> In p supportedPlatforms.
Proof.
  destruct p as [goos goarch]. unfold succeeds, ComputePlatformKey. simpl.
  unfold linuxOS, darwinOS, windowsOS, amd64Architecture, arm64Architecture.
  repeat match goal with
    | |- context [String.eqb ?a ?b] => destruct (String.eqb_spec a b); subst
    end; simpl; intros H; try discriminate; tauto.
Qed.

(** C1, as the code has it: [ComputePlatformKey] succeeds exactly on the
    five pairs of its table, linux and darwin on amd64 and arm64 and
    windows on amd64; on every other pair it returns the empty key and the
    error "unsupported platform: <os>_<arch>", which carries both raw
    identifiers. *)
Theorem ComputePlatformKey_closed_table (goos goarch : string) :
  length supportedPlatforms = 5%nat /\
  (succeeds (goos, goarch) <-> In (goos, goarch) supportedPlatforms) /\
  (succeeds (goos, goarch) \/
   ComputePlatformKey goos goarch =
     (EmptyString,
      Some (errorString
              ("unsupported platform: " +:+ goos +:+ "_" +:+ goarch)))).
Proof.
  split; [reflexivity|]. split.
  - split; [apply succeeds_supported | apply supported_succeeds].
  - unfold succeeds, ComputePlatformKey. simpl.
    repeat match goal with
      | |- context [String.eqb ?a ?b] => destruct (String.eqb a b)
      end; simpl; auto.
Qed.

(** C1, as stated, fails: there are no six supported pairs.  No list of
    six distinct pairs is the set on which [ComputePlatformKey]
    succeeds. *)
Lemma ComputePlatformKey_not_six_pairs :
  ~ exists l : list (string * string),
      List.NoDup l /\ length l = 6%nat /\
      forall goos goarch, succeeds (goos, goarch) <-> In (goos, goarch) l.
Proof.
  intros (l & Hnd & Hlen & Hl).
  assert (Hincl : incl l supportedPlatforms).
  { intros [goos goarch] Hin. apply succeeds_supported. now apply Hl. }
  pose proof (NoDup_incl_length Hnd Hincl) as Hle.
  rewrite Hlen in Hle. simpl in Hle. lia.
Qed.

(** ** Look-up *)

(** C2: a version [v] of the form [\d+\.\d+\.\d+] and ["v" + v] give the
    same result of [GetExpectedSHA], for every registry (nil too) and
    every platform key. *)
Theorem GetExpectedSHA_v_prefix (db : option VersionsDB)
    (platformKey v : string) :
  MatchString semverLike v = true ->
  GetExpectedSHA db ("v" +:+ v) platformKey = GetExpectedSHA db v platformKey.
Proof.
  intros H. unfold GetExpectedSHA. destruct db as [d|]; [|reflexivity].
  now rewrite NormalizeVersion_v_semver, NormalizeVersion_semver.
Qed.

Lemma GetExpectedSHA_v_prefix_witness :
  MatchString semverLike "2.31.1" = true /\
  GetExpectedSHA (Some (bundledDB noon)) "v2.31.1" "linux_amd64"
  = GetExpectedSHA (Some (bundledDB noon)) "2.31.1" "linux_amd64".
Proof.
  split; [reflexivity|].
  apply (GetExpectedSHA_v_prefix (Some (bundledDB noon)) "linux_amd64" "2.31.1").
  reflexivity.
Defined.

(** C3, on the registry authored under "v2.31.1": [Validate] accepts it,
    the entry is in the map under its raw key, and [GetExpectedSHA] does
    not find it, neither for "2.31.1" nor for "v2.31.1": the query is
    normalised, the keys of a loaded map are not. *)
Theorem GetExpectedSHA_misses_v_authored_key :
  Validate vKeyedDB = None /\
  entries vKeyedDB !! "v2.31.1" = Some bundledChecksums /\
  NormalizeVersion "v2.31.1" = "2.31.1" /\
  GetExpectedSHA (Some vKeyedDB) "2.31.1" "linux_amd64" = (EmptyString, false) /\
  GetExpectedSHA (Some vKeyedDB) "v2.31.1" "linux_amd64" = (EmptyString, false).
Proof. vm_compute. repeat split. Qed.

(** C10: [GetExpectedSHA] answers not-found, the empty digest and
    [false], on a nil registry, for a version that is not in the map, for
    a platform key that is none of the five, and for an entry whose field
    for the key is empty. *)
Theorem GetExpectedSHA_total (d : VersionsDB) (pcs : PlatformChecksums)
    (version platformKey : string) :
  GetExpectedSHA None version platformKey = (EmptyString, false) /\
  (entries d !! NormalizeVersion version = None ->
   GetExpectedSHA (Some d) version platformKey = (EmptyString, false)) /\
  (~ In platformKey platformKeys ->
   GetExpectedSHA (Some d) version platformKey = (EmptyString, false)) /\
  (entries d !! NormalizeVersion version = Some pcs ->
   In (platformKey, EmptyString) (checkPairs pcs) ->
   GetExpectedSHA (Some d) version platformKey = (EmptyString, false)).
Proof.
  split; [reflexivity|]. split; [|split].
  - intros H. unfold GetExpectedSHA. now rewrite H.
  - intros Hn. unfold GetExpectedSHA.
    destruct (entries d !! NormalizeVersion version); [|reflexivity].
    unfold platformKeys in Hn. simpl in Hn.
    repeat match goal with
      | |- context [String.eqb ?a ?b] =>
        destruct (String.eqb_spec a b); [exfalso; subst; tauto|]
      end.
    reflexivity.
  - intros H Hin. unfold GetExpectedSHA. rewrite H.
    unfold checkPairs in Hin. simpl in Hin.
    repeat (destruct Hin as [Hin|Hin];
            [injection Hin as <- ->; simpl; reflexivity|]).
    destruct Hin.
Qed.

Lemma GetExpectedSHA_total_witness :
  GetExpectedSHA None "2.31.1" "linux_amd64" = (EmptyString, false) /\
  GetExpectedSHA (Some spaceDB) "9.9.9" "linux_amd64" = (EmptyString, false) /\
  GetExpectedSHA (Some spaceDB) "2.31.1" "windows_arm64" = (EmptyString, false) /\
  GetExpectedSHA (Some spaceDB) "2.31.1" "darwin_arm64" = (EmptyString, false).
Proof.
  split; [|split; [|split]].
  - apply (GetExpectedSHA_total spaceDB spaceChecksums "2.31.1" "linux_amd64").
  - destruct (GetExpectedSHA_total spaceDB spaceChecksums "9.9.9" "linux_amd64")
      as (_ & H & _).
    apply H. reflexivity.
  - destruct (GetExpectedSHA_total spaceDB spaceChecksums "2.31.1" "windows_arm64")
      as (_ & _ & H & _).
    apply H. simpl. intros Hin. decompose [or] Hin; discriminate || assumption.
  - destruct (GetExpectedSHA_total spaceDB spaceChecksums "2.31.1" "darwin_arm64")
      as (_ & _ & _ & H).
    apply H; [reflexivity | simpl; tauto].
Defined.

(** ** Validation *)

Lemma checkLoop_spec ver pairs : forall errs b,
  checkLoop ver pairs errs b =
  (errs ++ map message
     (flat_map
        (fun p : string * string =>
           if (nonBlank (snd p) && negb (MatchString hexSHA256 (snd p)))%bool
           then [MalformedChecksum ver (fst p)] else [])
        pairs),
   (b || existsb (fun p : string * string => nonBlank (snd p)) pairs)%bool).
Proof.
  induction pairs as [|[name value] rest IH]; intros errs b; simpl.
  - now rewrite app_nil_r, orb_false_r.
  - unfold nonBlank at 1 3, blank. simpl.
    destruct (String.eqb (TrimSpace value) EmptyString); simpl.
    + apply IH.
    + rewrite IH, orb_true_r. simpl.
      destruct (MatchString hexSHA256 value); simpl; [reflexivity|].
      now rewrite <- app_assoc.
Qed.

Lemma validateEntry_spec errs e :
  validateEntry errs e = errs ++ map message (entryViolations e).
Proof.
  destruct e as [ver pcs]. unfold validateEntry, entryViolations.
  rewrite checkLoop_spec.
  unfold keyViolations, checksumViolations, noneViolations.
  cbv [fst snd orb].
  destruct (MatchString semverLike (NormalizeVersion ver));
    match goal with
    | |- context [existsb ?f ?l] => destruct (existsb f l)
    end;
    rewrite ?map_app, ?app_nil_r, <- ?app_assoc; reflexivity.
Qed.

Lemma fold_validateEntry order : forall errs,
  fold_left validateEntry order errs
  = errs ++ map message (flat_map entryViolations order).
Proof.
  induction order as [|e order IH]; intros errs; simpl.
  - now rewrite app_nil_r.
  - now rewrite IH, validateEntry_spec, map_app, app_assoc.
Qed.

Lemma flat_map_app_perm {A B : Type} (f g : A -> list B) (l : list A) :
  Permutation (flat_map (fun a => f a ++ g a) l) (flat_map f l ++ flat_map g l).
Proof.
  induction l as [|a l IH]; simpl; [constructor|].
  rewrite IH, <- !app_assoc. apply Permutation_app_head.
  rewrite !app_assoc. apply Permutation_app_tail, Permutation_app_comm.
Qed.

Lemma entryViolations_by_invariant es :
  Permutation (flat_map entryViolations es)
    (flat_map keyViolations es
     ++ flat_map (checksumViolations nonBlank) es
     ++ flat_map (noneViolations nonBlank) es).
Proof.
  unfold entryViolations.
  rewrite (flat_map_app_perm keyViolations _ es).
  apply Permutation_app_head, flat_map_app_perm.
Qed.

(** The errors [Validate] collects, in whatever order it ranges over the
    map, are the messages of the violations of the document. *)
Lemma validateErrs_violations db order :
  Permutation order (map_to_list (entries db)) ->
  Permutation (validateErrs order db) (map message (violations nonBlank db)).
Proof.
  intros Hp. unfold validateErrs, violations.
  destruct (decide (entries db = ∅)) as [He|Hne].
  - rewrite He, map_size_empty, map_to_list_empty. simpl.
    destruct (db_SchemaVersion db =? SchemaVersion); reflexivity.
  - destruct (Nat.eqb_spec (size (entries db)) 0) as [Hz|_].
    { now apply map_size_empty_inv in Hz. }
    rewrite fold_validateEntry, map_app.
    replace (map message
               (if db_SchemaVersion db =? SchemaVersion then []
                else [WrongSchemaVersion (db_SchemaVersion db)]))
      with (if db_SchemaVersion db =? SchemaVersion then []
            else [msgSchema (db_SchemaVersion db)])
      by now destruct (db_SchemaVersion db =? SchemaVersion).
    apply Permutation_app_head.
    simpl. apply Permutation_map.
    rewrite (Permutation_flat_map entryViolations Hp).
    apply entryViolations_by_invariant.
Qed.

(** C4, as the code has it.  The code reads two invariants in its own
    way: a key is malformed when what [NormalizeVersion] makes of it
    (surrounding white space trimmed, then one leading 'v' stripped) is
    no semantic version, and a field counts as populated when it is not
    blank.  With the violations counted so, whatever the order in which
    the map is ranged over, [Validate] returns nil for a document without
    violation, and for a document with N violations a single
    [ValidationError] whose list is the N messages of these violations,
    each one once, in some order. *)
Theorem Validate_lists_every_violation (db : VersionsDB)
    (order : list (string * PlatformChecksums)) :
  Permutation order (map_to_list (entries db)) ->
  (violations nonBlank db = [] /\ ValidateRange order db = None) \/
  (violations nonBlank db <> [] /\
   exists errs,
     ValidateRange order db = Some (ValidationError errs) /\
     Permutation errs (map message (violations nonBlank db)) /\
     length errs = length (violations nonBlank db)).
Proof.
  intros Hp. pose proof (validateErrs_violations db order Hp) as H.
  unfold ValidateRange.
  destruct (validateErrs order db) as [|e errs] eqn:He.
  - left. split; [|reflexivity].
    apply Permutation_nil in H. now destruct (violations nonBlank db).
  - right. split.
    + intros Hv. rewrite Hv in H. simpl in H.
      apply Permutation_sym, Permutation_nil in H. discriminate.
    + exists (e :: errs). split; [reflexivity|]. split; [assumption|].
      apply Permutation_length in H. now rewrite H, length_map.
Qed.

Lemma Validate_lists_every_violation_witness :
  Permutation (map_to_list (entries brokenDB)) (map_to_list (entries brokenDB))
  /\ length (violations nonBlank brokenDB) = 4%nat
  /\ exists errs,
       Validate brokenDB = Some (ValidationError errs) /\
       Permutation errs (map message (violations nonBlank brokenDB)).
Proof.
  split; [reflexivity|]. split; [reflexivity|].
  destruct (Validate_lists_every_violation brokenDB
              (map_to_list (entries brokenDB)))
    as [[Hv _]|[_ (errs & H1 & H2 & _)]].
  - reflexivity.
  - discriminate Hv.
  - exists errs. split; assumption.
Defined.

(** C4, as stated, fails, the invariants read to the letter.  A field
    that holds one space is not empty and is no digest, a violation of the
    fourth invariant; a key with a space on either side is no semantic
    version after a leading 'v' is stripped, a violation of the third.
    [Validate] returns nil for both documents, and the field with the
    space is then returned as a digest that was found. *)
Lemma Validate_misses_literal_violations :
  (literalViolations spaceDB = [MalformedChecksum "2.31.1" "linux_arm64"]
   /\ Validate spaceDB = None
   /\ GetExpectedSHA (Some spaceDB) "2.31.1" "linux_arm64" = (" ", true))
  /\ (literalViolations spacedKeyDB = [MalformedVersionKey " 2.31.1 "]
      /\ Validate spacedKeyDB = None).
Proof. vm_compute. repeat split. Qed.

(** ** Extension *)

(** C5, as the code has it.  Let the scratch registry hold the one entry
    for the normalised version.  If validating it fails, [ExtendDB]
    returns that error; the schema version, the time stamp and every
    entry of the registry are as before, and the registry is the same
    value unless its map was nil, which is now an empty map.  If it
    succeeds, [ExtendDB] returns nil, the entry for the normalised version
    is the new record, and every other entry and the other fields are as
    before. *)
Theorem ExtendDB_validates_before_merge (db : VersionsDB) (version : string)
    (checksums : PlatformChecksums) :
  let nv := NormalizeVersion version in
  let scratch :=
    {| db_SchemaVersion := db_SchemaVersion db;
       db_GeneratedAt := EmptyString;
       db_Versions := Some {[ nv := checksums ]} |} in
  let db' := fst (ExtendDB db version checksums) in
  db_SchemaVersion db' = db_SchemaVersion db /\
  db_GeneratedAt db' = db_GeneratedAt db /\
  db_Versions db' <> None /\
  snd (ExtendDB db version checksums) = Validate scratch /\
  (Validate scratch <> None ->
   entries db' = entries db /\ (db_Versions db <> None -> db' = db)) /\
  (Validate scratch = None ->
   entries db' = <[ nv := checksums ]> (entries db) /\
   entries db' !! nv = Some checksums /\
   forall k, k <> nv -> entries db' !! k = entries db !! k).
Proof.
  intros nv scratch db'. subst db' scratch nv. unfold ExtendDB.
  destruct db as [sv ga [m|]]; cbn [db_Versions db_SchemaVersion db_GeneratedAt];
    destruct (Validate _) as [err|]; unfold entries;
    cbn [fst snd db_Versions db_SchemaVersion db_GeneratedAt];
    repeat split; try congruence; try tauto; intros;
    try (now rewrite lookup_insert_eq); now rewrite lookup_insert_ne.
Qed.

Lemma ExtendDB_validates_before_merge_witness :
  Validate {| db_SchemaVersion := 1; db_GeneratedAt := EmptyString;
              db_Versions := Some {[ "3.0.0" := badChecksums ]} |} <> None
  /\ fst (ExtendDB (bundledDB noon) "v3.0.0" badChecksums) = bundledDB noon
  /\ Validate {| db_SchemaVersion := 1; db_GeneratedAt := EmptyString;
                 db_Versions := Some {[ "3.0.0" := bundledChecksums ]} |} = None
  /\ GetExpectedSHA
       (Some (fst (ExtendDB (bundledDB noon) "v3.0.0" bundledChecksums)))
       "3.0.0" "linux_amd64"
     = (LinuxAMD64 bundledChecksums, true).
Proof.
  split; [vm_compute; discriminate|]. split; [|split; [vm_compute; reflexivity|]].
  - destruct (ExtendDB_validates_before_merge (bundledDB noon) "v3.0.0"
                badChecksums) as (_ & _ & _ & _ & H & _).
    apply H; [vm_compute; discriminate | discriminate].
  - destruct (ExtendDB_validates_before_merge (bundledDB noon) "v3.0.0"
                bundledChecksums) as (_ & _ & _ & _ & _ & H).
    destruct H as (_ & Hl & _); [vm_compute; reflexivity|].
    unfold GetExpectedSHA.
    replace (NormalizeVersion "3.0.0") with (NormalizeVersion "v3.0.0")
      by (vm_compute; reflexivity).
    rewrite Hl. reflexivity.
Defined.

(** C5, as stated, fails: on a registry whose map is nil, a call with a
    bad checksum for one platform returns the validation error and leaves
    a registry that is not the one before, its map allocated. *)
Lemma ExtendDB_failure_allocates_map :
  snd (ExtendDB nilMapDB "3.0.0" badChecksums)
  = Some (ValidationError
            ["version 3.0.0: invalid linux_arm64 checksum (must be 64 hex chars)"])
  /\ db_Versions nilMapDB = None
  /\ db_Versions (fst (ExtendDB nilMapDB "3.0.0" badChecksums)) = Some ∅
  /\ fst (ExtendDB nilMapDB "3.0.0" badChecksums) <> nilMapDB.
Proof. vm_compute. repeat split. discriminate. Qed.

(** ** Bootstrap *)

Ltac bootstrap_cases :=
  unfold WriteBundledDBIfMissing, targetExists, bundleCheck, os_MkdirAll,
    os_WriteFile in *;
  repeat case_match; simplify_eq; cbn [fst snd log files dirs] in *.

(** What one call of the bootstrap adds to the log, and what may stand in
    it. *)
Lemma WriteBundledDBIfMissing_log h fs :
  log (fst (WriteBundledDBIfMissing h fs)) = log fs ++ newEvents h fs /\
  forall p c m, In (EvWriteFile p c m) (newEvents h fs) ->
    c = bundledVersionsYAML (initTime h) /\ m = perm0600 /\
    DefaultDBPath h = (p, None) /\
    bundleCheck h = None /\ targetExists h fs = false.
Proof.
  assert (H : exists evs,
             log (fst (WriteBundledDBIfMissing h fs)) = log fs ++ evs /\
             forall p c m, In (EvWriteFile p c m) evs ->
               c = bundledVersionsYAML (initTime h) /\ m = perm0600 /\
               DefaultDBPath h = (p, None) /\
               bundleCheck h = None /\ targetExists h fs = false).
  { bootstrap_cases;
      first
        [ exists []; split; [now rewrite app_nil_r | intros ? ? ? []]
        | eexists [_]; split; [reflexivity|];
          intros ? ? ? [Hin|[]]; discriminate Hin
        | eexists [_; _]; split; [now rewrite <- app_assoc|];
          intros ? ? ? [Hin|[Hin|[]]]; [discriminate Hin|];
          injection Hin as <- <- <-; auto ]. }
  destruct H as (evs & Hlog & Hev). unfold newEvents.
  rewrite Hlog, drop_app_length. auto.
Qed.

Lemma os_Stat_present h fs path content :
  files fs !! path = Some content -> statFault h path = None ->
  os_Stat h fs path = None.
Proof. intros Hf Hs. unfold os_Stat. now rewrite Hs, Hf. Qed.

Lemma WriteBundledDBIfMissing_target_exists h fs :
  targetExists h fs = true -> WriteBundledDBIfMissing h fs = (fs, None).
Proof. intros H. bootstrap_cases; congruence. Qed.

(** After a call that returned nil, the target is there. *)
Lemma WriteBundledDBIfMissing_installs h fs :
  snd (WriteBundledDBIfMissing h fs) = None ->
  targetExists h (fst (WriteBundledDBIfMissing h fs)) = true.
Proof.
  unfold targetExists. intros H.
  destruct (DefaultDBPath h) as [path [e|]] eqn:Hp.
  - unfold WriteBundledDBIfMissing in H. rewrite Hp in H. discriminate.
  - unfold WriteBundledDBIfMissing in *. rewrite Hp in *.
    destruct (os_Stat h fs path) as [e|] eqn:Hs; [|cbn [fst]; now rewrite Hs].
    unfold os_Stat in Hs.
    destruct (statFault h path) as [f|] eqn:Hf;
      [injection Hs as <-; destruct f; simpl in H; discriminate H|].
    unfold os_MkdirAll, os_WriteFile in *.
    repeat case_match; simplify_eq; cbn [fst snd files dirs] in *;
      try discriminate; try reflexivity; exfalso;
      match goal with
      | Hst : os_Stat _ _ _ = Some _ |- _ =>
        unfold os_Stat in Hst; cbn [files dirs] in Hst;
        rewrite Hf, lookup_insert_eq in Hst; discriminate Hst
      end.
Qed.

Lemma WriteBundledDBIfMissing_twice_nil h fs :
  snd (WriteBundledDBIfMissing h fs) = None ->
  WriteBundledDBIfMissing h (fst (WriteBundledDBIfMissing h fs))
  = (fst (WriteBundledDBIfMissing h fs), None).
Proof.
  intros H. apply WriteBundledDBIfMissing_target_exists.
  now apply WriteBundledDBIfMissing_installs.
Qed.

(** With the faults of the host fixed, a second call writes no file the
    first has not written. *)
Lemma WriteBundledDBIfMissing_twice_files h fs :
  files (fst (WriteBundledDBIfMissing h (fst (WriteBundledDBIfMissing h fs))))
  = files (fst (WriteBundledDBIfMissing h fs)).
Proof.
  destruct (snd (WriteBundledDBIfMissing h fs)) as [e|] eqn:Hr.
  2:{ now rewrite (WriteBundledDBIfMissing_twice_nil h fs Hr). }
  unfold WriteBundledDBIfMissing in *.
  destruct (DefaultDBPath h) as [path [e0|]] eqn:Hp; [reflexivity|].
  unfold os_Stat, os_MkdirAll, os_WriteFile in *.
  repeat (case_match; simplify_eq; cbn [fst snd files dirs log] in * );
    try reflexivity; try discriminate; exfalso;
    try match goal with
      | Hf : negb (IsNotExist (PathError _ _ (faultErrno ?f))) = false |- _ =>
        destruct f; discriminate Hf
      end;
    set_solver.
Qed.

Lemma written_unchanged h fs e :
  WriteBundledDBIfMissing h fs = (fs, e) -> written h fs = [].
Proof.
  intros He. unfold written, newEvents. rewrite He. cbn [fst].
  now rewrite drop_all.
Qed.

(** C6, as the code has it: the bootstrap never overwrites a registry
    that is on disk.  If the file at the default path is there, the call
    writes nothing and leaves every file as it was; it returns nil, the
    whole file system as it was, when [os.Stat] succeeds on the path, and
    it returns the error of [os.Stat] when that fails.  After a call that
    returned nil a second call returns nil and changes nothing, and in
    every case the files after the second call are the files after the
    first. *)
Theorem WriteBundledDBIfMissing_never_overwrites (h : Host) (fs : FS) :
  (forall path content,
     DefaultDBPath h = (path, None) -> files fs !! path = Some content ->
     written h fs = [] /\
     files (fst (WriteBundledDBIfMissing h fs)) = files fs /\
     (statFault h path = None -> WriteBundledDBIfMissing h fs = (fs, None)) /\
     (forall f, statFault h path = Some f ->
        WriteBundledDBIfMissing h fs
        = (fs, Some (PathError "stat" path (faultErrno f))))) /\
  (snd (WriteBundledDBIfMissing h fs) = None ->
   WriteBundledDBIfMissing h (fst (WriteBundledDBIfMissing h fs))
   = (fst (WriteBundledDBIfMissing h fs), None)) /\
  files (fst (WriteBundledDBIfMissing h (fst (WriteBundledDBIfMissing h fs))))
  = files (fst (WriteBundledDBIfMissing h fs)).
Proof.
  split; [|split].
  - intros path content Hp Hf.
    assert (He : exists e, WriteBundledDBIfMissing h fs = (fs, e)
                   /\ (statFault h path = None -> e = None)
                   /\ (forall f, statFault h path = Some f ->
                         e = Some (PathError "stat" path (faultErrno f)))).
    { destruct (statFault h path) as [f|] eqn:Hs.
      - unfold WriteBundledDBIfMissing, os_Stat. rewrite Hp, Hs.
        destruct f; cbn [faultErrno IsNotExist negb]; eexists;
          (split; [reflexivity|]);
          (split; [discriminate | intros f' Hf'; now injection Hf' as <-]).
      - exists None. split; [|split; [reflexivity | discriminate]].
        apply WriteBundledDBIfMissing_target_exists. unfold targetExists.
        now rewrite Hp, (os_Stat_present h fs path content). }
    destruct He as (e & He & Hnil & Herr).
    split; [now apply (written_unchanged h fs e)|].
    split; [now rewrite He|]. split.
    + intros Hs. now rewrite He, (Hnil Hs).
    + intros f Hs. now rewrite He, (Herr f Hs).
  - apply WriteBundledDBIfMissing_twice_nil.
  - apply WriteBundledDBIfMissing_twice_files.
Qed.

Lemma WriteBundledDBIfMissing_never_overwrites_witness :
  DefaultDBPath (sampleHost noonAndOneSecond) = (samplePath, None)
  /\ files userFS !! samplePath = Some (bundledVersionsYAML noon)
  /\ written (sampleHost noonAndOneSecond) userFS = []
  /\ WriteBundledDBIfMissing (sampleHost noonAndOneSecond) userFS = (userFS, None)
  /\ snd (WriteBundledDBIfMissing (sampleHost noon) emptyFS) = None
  /\ WriteBundledDBIfMissing (sampleHost noon)
       (fst (WriteBundledDBIfMissing (sampleHost noon) emptyFS))
     = (fst (WriteBundledDBIfMissing (sampleHost noon) emptyFS), None).
Proof.
  assert (Hp : DefaultDBPath (sampleHost noonAndOneSecond) = (samplePath, None))
    by (vm_compute; reflexivity).
  assert (Hf : files userFS !! samplePath = Some (bundledVersionsYAML noon))
    by (vm_compute; reflexivity).
  assert (Hr : snd (WriteBundledDBIfMissing (sampleHost noon) emptyFS) = None)
    by (vm_compute; reflexivity).
  destruct (WriteBundledDBIfMissing_never_overwrites
              (sampleHost noonAndOneSecond) userFS) as (H & _).
  destruct (H samplePath (bundledVersionsYAML noon) Hp Hf) as (Hw & _ & Hs & _).
  destruct (WriteBundledDBIfMissing_never_overwrites
              (sampleHost noon) emptyFS) as (_ & H' & _).
  split; [exact Hp|]. split; [exact Hf|]. split; [exact Hw|].
  split; [exact (Hs eq_refl)|]. split; [exact Hr | exact (H' Hr)].
Defined.

(** C6, as stated, fails: the file is at the default path, [os.Stat]
    fails on it because permission is denied, and the call returns that
    error, not nil.  It writes nothing. *)
Lemma WriteBundledDBIfMissing_existing_not_nil :
  DefaultDBPath (faultyHost (Some Denied) None None None) = (samplePath, None)
  /\ files userFS !! samplePath = Some (bundledVersionsYAML noon)
  /\ WriteBundledDBIfMissing (faultyHost (Some Denied) None None None) userFS
     = (userFS, Some (PathError "stat" samplePath EACCES)).
Proof. vm_compute. repeat split. Qed.

Lemma bundleCheck_None h :
  bundleCheck h = None ->
  exists db,
    yaml_Unmarshal h (bundledVersionsYAML (initTime h)) = inr db
    /\ Validate db = None.
Proof.
  unfold bundleCheck. intros H. repeat case_match; try discriminate. eauto.
Qed.

Lemma written_no_write evs :
  (forall p c m, ~ In (EvWriteFile p c m) evs) ->
  flat_map (fun ev => match ev with
                      | EvWriteFile _ content _ => [content]
                      | EvMkdirAll _ _ => []
                      end) evs = [].
Proof.
  induction evs as [|[d m|p c m] evs IH]; intros H; simpl.
  - reflexivity.
  - apply IH. intros p c m' Hin. apply (H p c m'). now right.
  - exfalso. apply (H p c m). now left.
Qed.

Lemma written_In h fs c :
  In c (written h fs) -> exists p m, In (EvWriteFile p c m) (newEvents h fs).
Proof.
  unfold written. intros H. apply in_flat_map in H as ([d m|p c' m] & Hin & Hc).
  - destruct Hc.
  - destruct Hc as [<-|[]]. eauto.
Qed.

(** C7: the bootstrap validates the bundled document before it writes.
    Whatever a call hands to [os.WriteFile] has been parsed, and the
    parsed registry has passed [Validate].  If parsing or validating the
    bundled document fails, the call writes nothing and leaves every file
    as it was; it returns an error unless the target is already there
    (then it returns before the check), and once the directory is made the
    error is that of the failed check. *)
Theorem WriteBundledDBIfMissing_validates_before_write (h : Host) (fs : FS) :
  (forall c, In c (written h fs) ->
     exists db, yaml_Unmarshal h c = inr db /\ Validate db = None) /\
  (forall e, bundleCheck h = Some e ->
     written h fs = [] /\
     files (fst (WriteBundledDBIfMissing h fs)) = files fs /\
     (targetExists h fs = false ->
      snd (WriteBundledDBIfMissing h fs) <> None) /\
     (forall path,
        DefaultDBPath h = (path, None) ->
        os_Stat h fs path = Some (PathError "stat" path ENOENT) ->
        snd (os_MkdirAll h fs (filepath_Dir h path) perm0700) = None ->
        snd (WriteBundledDBIfMissing h fs) = Some e)).
Proof.
  destruct (WriteBundledDBIfMissing_log h fs) as [_ Hev]. split.
  - intros c Hc. apply written_In in Hc as (p & m & Hin).
    destruct (Hev p c m Hin) as (-> & _ & _ & Hb & _).
    now apply bundleCheck_None.
  - intros e He. split; [|split; [|split]].
    + apply written_no_write. intros p c m Hin.
      destruct (Hev p c m Hin) as (_ & _ & _ & Hb & _). congruence.
    + clear Hev. bootstrap_cases; congruence.
    + clear Hev. bootstrap_cases; congruence.
    + clear Hev. intros path Hp Hs Hm.
      unfold WriteBundledDBIfMissing, bundleCheck in *.
      rewrite Hp, Hs. cbn [IsNotExist negb].
      destruct (os_MkdirAll h fs (filepath_Dir h path) perm0700) as [fs1 [e1|]];
        [discriminate Hm|].
      repeat case_match; simplify_eq; reflexivity.
Qed.

Lemma WriteBundledDBIfMissing_validates_before_write_witness :
  bundleCheck corruptHost
  = Some (wrapError
            "bundled versions DB is invalid YAML: yaml: unmarshal errors"
            (errorString "yaml: unmarshal errors"))
  /\ written corruptHost emptyFS = []
  /\ files (fst (WriteBundledDBIfMissing corruptHost emptyFS)) = files emptyFS
  /\ snd (WriteBundledDBIfMissing corruptHost emptyFS) = bundleCheck corruptHost.
Proof.
  assert (Hb : bundleCheck corruptHost
               = Some (wrapError
                         "bundled versions DB is invalid YAML: yaml: unmarshal errors"
                         (errorString "yaml: unmarshal errors")))
    by (vm_compute; reflexivity).
  destruct (WriteBundledDBIfMissing_validates_before_write corruptHost emptyFS)
    as [_ H].
  destruct (H _ Hb) as (H1 & H2 & _ & H4).
  split; [exact Hb|]. split; [exact H1|]. split; [exact H2|].
  rewrite Hb. apply (H4 samplePath); vm_compute; reflexivity.
Defined.

(** ** The content the bootstrap writes *)

Lemma list_ascii_of_string_app s1 s2 :
  list_ascii_of_string (s1 +:+ s2)
  = list_ascii_of_string s1 ++ list_ascii_of_string s2.
Proof. induction s1 as [|c s1 IH]; simpl; [reflexivity | now rewrite IH]. Qed.

Lemma string_app_assoc s1 s2 s3 : (s1 +:+ s2) +:+ s3 = s1 +:+ (s2 +:+ s3).
Proof.
  induction s1 as [|c s1 IH]; [reflexivity|].
  change (String c ((s1 +:+ s2) +:+ s3) = String c (s1 +:+ s2 +:+ s3)).
  now rewrite IH.
Qed.

Lemma string_app_cons c s t : String c s +:+ t = String c (s +:+ t).
Proof. reflexivity. Qed.

(** A text between two line feeds that begins and ends with a plain byte
    is what [TrimSpace] leaves. *)
Lemma TrimSpace_lines c s1 s2 x :
  plain c -> plain x -> String c s1 = s2 +:+ String x EmptyString ->
  TrimSpace (nl +:+ String c s1 +:+ nl) = String c s1.
Proof.
  intros Hc Hx Hs. unfold TrimSpace.
  change (nl +:+ String c s1 +:+ nl) with
    (String (ascii_of_nat 10) (String c (s1 +:+ nl))).
  cbn [list_ascii_of_string].
  change (trimRunes false (ascii_of_nat 10 :: c :: list_ascii_of_string (s1 +:+ nl)))
    with (trimRunes false (c :: list_ascii_of_string (s1 +:+ nl))).
  rewrite trimRunes_plain by assumption.
  change (c :: list_ascii_of_string (s1 +:+ nl))
    with (list_ascii_of_string (String c s1 +:+ nl)).
  rewrite Hs, string_app_assoc, !list_ascii_of_string_app.
  change (list_ascii_of_string (String x EmptyString) ++ list_ascii_of_string nl)
    with [x; ascii_of_nat 10].
  rewrite rev_app_distr. cbn [rev app].
  change (trimRunes true (ascii_of_nat 10 :: x :: rev (list_ascii_of_string s2)))
    with (trimRunes true (x :: rev (list_ascii_of_string s2))).
  rewrite trimRunes_plain by assumption.
  change (x :: rev (list_ascii_of_string s2))
    with (rev [x] ++ rev (list_ascii_of_string s2)).
  rewrite <- rev_app_distr, rev_involutive.
  change [x] with (list_ascii_of_string (String x EmptyString)).
  rewrite <- list_ascii_of_string_app, string_of_list_ascii_of_string.
  reflexivity.
Qed.

Lemma TrimSpace_lines_around c a q b x :
  plain c -> plain x ->
  TrimSpace
    (String (ascii_of_nat 10)
       (String c (a +:+ q +:+ b +:+ String x (String (ascii_of_nat 10) EmptyString))))
  = String c (a +:+ q +:+ b +:+ String x EmptyString).
Proof.
  intros Hc Hx.
  rewrite <- (TrimSpace_lines c (a +:+ q +:+ b +:+ String x EmptyString)
                (String c (a +:+ q +:+ b)) x Hc Hx).
  - f_equal. unfold nl. rewrite !string_app_cons. do 2 f_equal.
    now rewrite !string_app_assoc.
  - rewrite string_app_cons. f_equal. now rewrite !string_app_assoc.
Qed.

(** The bundled document is the same text around its time stamp, whatever
    the clock. *)
Lemma bundledVersionsYAML_shape now :
  bundledVersionsYAML now = bundledHead +:+ fmt_q (RFC3339 now) +:+ bundledTail.
Proof.
  unfold bundledVersionsYAML.
  generalize (fmt_q (RFC3339 now)). intros q.
  transitivity
    (TrimSpace
       (String (ascii_of_nat 10)
          (String "s"
             (("chema_version: 1" +:+ nl +:+ "generated_at: ") +:+ q
              +:+ substring 0 (String.length bundledTail - 1) bundledTail
              +:+ String (ascii_of_nat 34)
                    (String (ascii_of_nat 10) EmptyString))))).
  - f_equal; vm_compute; reflexivity.
  - rewrite TrimSpace_lines_around by (split; vm_compute; reflexivity).
    vm_compute. reflexivity.
Qed.

(** C8, as the code has it: what an invocation writes is the fixed text of
    the bundled document around one time stamp, the clock read when the
    package of the writing process was initialised; two invocations that
    write produce byte-identical content when these readings agree, as
    they do within one process. *)
Theorem WriteBundledDBIfMissing_content_by_clock (h1 h2 : Host)
    (fs1 fs2 : FS) (c1 c2 : string) :
  In c1 (written h1 fs1) -> In c2 (written h2 fs2) ->
  c1 = bundledHead +:+ fmt_q (RFC3339 (initTime h1)) +:+ bundledTail /\
  c2 = bundledHead +:+ fmt_q (RFC3339 (initTime h2)) +:+ bundledTail /\
  (initTime h1 = initTime h2 -> c1 = c2).
Proof.
  intros H1 H2.
  apply written_In in H1 as (p1 & m1 & H1).
  apply written_In in H2 as (p2 & m2 & H2).
  destruct (WriteBundledDBIfMissing_log h1 fs1) as [_ Hev1].
  destruct (WriteBundledDBIfMissing_log h2 fs2) as [_ Hev2].
  destruct (Hev1 _ _ _ H1) as (-> & _). destruct (Hev2 _ _ _ H2) as (-> & _).
  rewrite <- !bundledVersionsYAML_shape.
  split; [reflexivity|]. split; [reflexivity|]. now intros ->.
Qed.

Lemma WriteBundledDBIfMissing_content_by_clock_witness :
  In (bundledVersionsYAML noon) (written (sampleHost noon) emptyFS)
  /\ bundledVersionsYAML noon
     = bundledHead +:+ fmt_q (RFC3339 noon) +:+ bundledTail.
Proof.
  assert (H : In (bundledVersionsYAML noon) (written (sampleHost noon) emptyFS))
    by (vm_compute; left; reflexivity).
  split; [exact H|].
  destruct (WriteBundledDBIfMissing_content_by_clock
              (sampleHost noon) (sampleHost noon) emptyFS emptyFS
              (bundledVersionsYAML noon) (bundledVersionsYAML noon) H H)
    as (Hc & _).
  exact Hc.
Defined.

(** C8, as stated, fails: two processes on hosts that differ in nothing
    but the second at which the package was initialised both write, and
    the contents they write differ. *)
Lemma WriteBundledDBIfMissing_race_contents_differ :
  written (sampleHost noon) emptyFS = [bundledVersionsYAML noon]
  /\ written (sampleHost noonAndOneSecond) emptyFS
     = [bundledVersionsYAML noonAndOneSecond]
  /\ bundledVersionsYAML noon <> bundledVersionsYAML noonAndOneSecond
  /\ files (fst (WriteBundledDBIfMissing (sampleHost noon) emptyFS))
       !! samplePath
     <> files (fst (WriteBundledDBIfMissing (sampleHost noonAndOneSecond)
                      emptyFS)) !! samplePath.
Proof.
  assert (Hne : bundledVersionsYAML noon <> bundledVersionsYAML noonAndOneSecond).
  { intros H. apply String.eqb_eq in H. vm_compute in H. discriminate H. }
  split; [vm_compute; reflexivity|]. split; [vm_compute; reflexivity|].
  split; [exact Hne|].
  replace (files (fst (WriteBundledDBIfMissing (sampleHost noon) emptyFS))
             !! samplePath) with (Some (bundledVersionsYAML noon))
    by (vm_compute; reflexivity).
  replace (files (fst (WriteBundledDBIfMissing (sampleHost noonAndOneSecond)
                         emptyFS)) !! samplePath)
    with (Some (bundledVersionsYAML noonAndOneSecond))
    by (vm_compute; reflexivity).
  intros H. apply (inj Some) in H. exact (Hne H).
Qed.

(** ** Loading *)

Lemma Validate_error db e :
  Validate db = Some e ->
  exists errs, e = ValidationError errs /\ errs <> [] /\ Unwrap e = None.
Proof.
  unfold Validate, ValidateRange.
  destruct (validateErrs _ db) as [|m errs]; [discriminate|].
  intros H. injection H as <-. exists (m :: errs). repeat split. discriminate.
Qed.

(** C9, as the code has it.  [loadDBFromPath] returns a registry only
    with a nil error, and then the registry has passed [Validate].  A read
    failure and a parse failure are returned wrapped: the error keeps its
    cause and its message names the path.  A validation failure is
    returned as it is: the [ValidationError] itself, which wraps nothing
    and whose message is made of the violations alone. *)
Theorem loadDBFromPath_failures (h : Host) (fs : FS) (path : string) :
  (snd (loadDBFromPath h fs path) <> None ->
   fst (loadDBFromPath h fs path) = None) /\
  (forall db, fst (loadDBFromPath h fs path) = Some db ->
     snd (loadDBFromPath h fs path) = None /\ Validate db = None) /\
  (forall cause, os_ReadFile h fs path = inl cause ->
     exists e, loadDBFromPath h fs path = (None, Some e) /\
       Unwrap e = Some cause /\
       Error e = "failed to read versions DB at " +:+ path +:+ ": "
                 +:+ Error cause) /\
  (forall content cause,
     os_ReadFile h fs path = inr content ->
     yaml_Unmarshal h content = inl cause ->
     exists e, loadDBFromPath h fs path = (None, Some e) /\
       Unwrap e = Some cause /\
       Error e = "failed to parse YAML versions DB at " +:+ path +:+ ": "
                 +:+ Error cause) /\
  (forall content db cause,
     os_ReadFile h fs path = inr content ->
     yaml_Unmarshal h content = inr db ->
     Validate db = Some cause ->
     loadDBFromPath h fs path = (None, Some cause) /\
     exists errs, cause = ValidationError errs /\ errs <> [] /\
       Unwrap cause = None).
Proof.
  unfold loadDBFromPath. split; [|split; [|split; [|split]]].
  - repeat case_match; simpl; congruence.
  - intros db. repeat case_match; simpl; intros; simplify_eq. auto.
  - intros cause ->. eexists. split; [reflexivity|].
    split; [reflexivity|]. unfold Errorf_w, Error at 1.
    now rewrite !string_app_assoc.
  - intros content cause -> ->. eexists. split; [reflexivity|].
    split; [reflexivity|]. unfold Errorf_w, Error at 1.
    now rewrite !string_app_assoc.
  - intros content db cause -> -> Hv. rewrite Hv. split; [reflexivity|].
    now apply (Validate_error db).
Qed.

Lemma loadDBFromPath_failures_witness :
  os_ReadFile (sampleHost noon) emptyFS samplePath
  = inl (PathError "open" samplePath ENOENT)
  /\ exists e,
       loadDBFromPath (sampleHost noon) emptyFS samplePath = (None, Some e)
       /\ Unwrap e = Some (PathError "open" samplePath ENOENT)
       /\ Error e
          = "failed to read versions DB at " +:+ samplePath +:+ ": "
            +:+ Error (PathError "open" samplePath ENOENT).
Proof.
  assert (Hr : os_ReadFile (sampleHost noon) emptyFS samplePath
               = inl (PathError "open" samplePath ENOENT))
    by (vm_compute; reflexivity).
  split; [exact Hr|].
  destruct (loadDBFromPath_failures (sampleHost noon) emptyFS samplePath)
    as (_ & _ & H & _).
  exact (H _ Hr).
Defined.

(** C9, as stated, fails for a validation failure: loading the document
    with schema_version 2 returns the [ValidationError] itself, which
    wraps no cause and whose message does not name the path. *)
Lemma loadDBFromPath_validation_error_bare :
  os_ReadFile (sampleHost noon) schema2FS schema2Path = inr schema2Doc
  /\ yaml_Unmarshal (sampleHost noon) schema2Doc = inr schema2DB
  /\ loadDBFromPath (sampleHost noon) schema2FS schema2Path
     = (None,
        Some (ValidationError ["unexpected schema_version=2 (expected 1)"]))
  /\ Unwrap (ValidationError ["unexpected schema_version=2 (expected 1)"])
     = None
  /\ Error (ValidationError ["unexpected schema_version=2 (expected 1)"])
     = "schema validation failed: unexpected schema_version=2 (expected 1)"
  /\ Contains
       (Error (ValidationError ["unexpected schema_version=2 (expected 1)"]))
       schema2Path = false.
Proof. vm_compute. repeat split. Qed.

(** ** Scenarios *)

(** White space is trimmed as Unicode has it: a no-break space (C2 A0) in
    front and an em space (E2 80 83) and a tab behind are removed, a
    lone continuation byte is kept. *)
Example TrimSpace_unicode :
  TrimSpace
    (String (ascii_of_nat 194) (String (ascii_of_nat 160)
       (" v2.31.1"
        +:+ String (ascii_of_nat 226) (String (ascii_of_nat 128)
              (String (ascii_of_nat 131) (String (ascii_of_nat 9) EmptyString))))))
  = "v2.31.1"
  /\ TrimSpace (String (ascii_of_nat 160) " x ")
     = String (ascii_of_nat 160) " x".
Proof. vm_compute. split; reflexivity. Qed.

Example NormalizeVersion_examples :
  NormalizeVersion "v2.31.1" = "2.31.1"
  /\ NormalizeVersion " 2.31.1 " = "2.31.1"
  /\ NormalizeVersion "vv2.31.1" = "v2.31.1"
  /\ NormalizeVersion "v 2.31.1" = " 2.31.1".
Proof. vm_compute. repeat split. Qed.

(** The bundled registry is valid; on a host without a registry the
    resolution installs the bundled document and returns the digest of
    the platform. *)
Example ExpectedSHAFromDB_bootstraps :
  Validate (bundledDB noon) = None
  /\ snd (ExpectedSHAFromDB (sampleHost noon) emptyFS "v2.31.1")
     = (LinuxAMD64 bundledChecksums, None)
  /\ files (fst (ExpectedSHAFromDB (sampleHost noon) emptyFS "v2.31.1"))
       !! samplePath
     = Some (bundledVersionsYAML noon).
Proof. vm_compute. repeat split. Qed.

(** A key without patch component and an entry without checksum are
    cited. *)
Example Validate_brokenDB :
  exists errs,
    Validate brokenDB = Some (ValidationError errs)
    /\ In "unexpected schema_version=2 (expected 1)" errs
    /\ In "invalid version key '2.31' (expected semantic version like 2.31.1)"
         errs
    /\ In "version 9.9.9: no platform checksums provided" errs
    /\ In "version 3.0.0: invalid linux_amd64 checksum (must be 64 hex chars)"
         errs
    /\ length errs = 4%nat.
Proof. eexists. vm_compute. repeat split; tauto. Qed.

(** With the override set to a path where nothing is, loading fails with
    a read error that names the path, and no bootstrap is attempted. *)
Example LoadOrInstallDB_override_missing :
  exists e,
    LoadOrInstallDB overrideHost emptyFS
    = (emptyFS, (None, "/opt/op/versions.yaml", Some e))
    /\ Error e
       = "failed to read versions DB at /opt/op/versions.yaml: open /opt/op/versions.yaml: no such file or directory".
Proof. eexists. vm_compute. split; reflexivity. Qed.

(** Pairs in and outside the table; the identifiers are compared as they
    are, case included. *)
Example ComputePlatformKey_examples :
  ComputePlatformKey "windows" "arm64"
  = (EmptyString, Some (errorString "unsupported platform: windows_arm64"))
  /\ ComputePlatformKey "darwin" "arm64" = ("darwin_arm64", None)
  /\ ComputePlatformKey "Linux" "amd64"
     = (EmptyString, Some (errorString "unsupported platform: Linux_amd64")).
Proof. vm_compute. repeat split. Qed.

(** * Further properties of the package *)

(** ** The two patterns *)

Lemma lang_nullable r s : lang r s -> s = [] -> nullable r = true.
Proof.
  induction 1; intros E; simpl; try reflexivity; try discriminate.
  - apply app_eq_nil in E as [-> ->]. now rewrite IHlang1, IHlang2.
  - now rewrite IHlang.
  - rewrite IHlang by assumption. apply orb_true_r.
Qed.

Lemma lang_deriv r cs : lang r cs -> forall c s, cs = c :: s -> lang (deriv c r) s.
Proof.
  induction 1 as [|p c' Hp|r1 r2 s1 s2 H1 IH1 H2 IH2|r1 r2 s0 H1 IH1
                  |r1 r2 s0 H2 IH2| |r1 s1 s2 H1 IH1 H2 IH2];
    intros c s E; simpl; try discriminate.
  - injection E as -> <-. rewrite Hp. constructor.
  - destruct s1 as [|c1 s1].
    + simpl in E. rewrite (lang_nullable r1 [] H1 eq_refl).
      apply lang_alt_r. now apply IH2.
    + simpl in E. injection E as -> <-.
      specialize (IH1 c s1 eq_refl).
      destruct (nullable r1); [apply lang_alt_l|]; now constructor.
  - apply lang_alt_l. now apply IH1.
  - apply lang_alt_r. now apply IH2.
  - destruct s1 as [|c1 s1].
    + simpl in E. now apply IH2.
    + simpl in E. injection E as -> <-. constructor; [now apply IH1 | assumption].
Qed.

Lemma lang_matches s : forall r, lang r s -> matches r s = true.
Proof.
  induction s as [|c s IH]; intros r H; simpl.
  - now apply (lang_nullable r []).
  - apply IH. now apply (lang_deriv r (c :: s)).
Qed.

Lemma lang_rep_class p n s :
  lang (Rep n (Class p)) s <-> length s = n /\ Forall (fun c => p c = true) s.
Proof.
  revert s. induction n as [|n IH]; intros s; simpl.
  - split.
    + intros H. inversion H; subst. split; [reflexivity | constructor].
    + intros [Hl _]. destruct s; [constructor | discriminate].
  - split.
    + intros H. inversion H as [| |? ? s1 s2 H1 H2| | | |]; subst.
      inversion H1; subst. apply IH in H2 as [Hl HF]. simpl.
      split; [now rewrite Hl | now constructor].
    + intros [Hl HF]. destruct s as [|c s]; [discriminate|].
      injection Hl as Hl. inversion HF; subst.
      change (c :: s) with ([c] ++ s). constructor; [now constructor|].
      apply IH. now split.
Qed.

Lemma length_list_ascii_of_string s :
  length (list_ascii_of_string s) = String.length s.
Proof. induction s as [|c s IH]; simpl; [reflexivity | now rewrite IH]. Qed.

(** X1: [hexSHA256] accepts exactly the strings of 64 bytes that are all
    in [0-9a-f]. *)
Theorem hexSHA256_iff (s : string) :
  MatchString hexSHA256 s = true <->
  String.length s = 64%nat /\
  Forall (fun c => lowerHex c = true) (list_ascii_of_string s).
Proof.
  unfold MatchString, hexSHA256.
  rewrite <- length_list_ascii_of_string, <- lang_rep_class.
  split; [apply matches_lang | apply lang_matches].
Qed.

Lemma lang_plus_class_iff p s :
  lang (Plus (Class p)) s <-> s <> [] /\ Forall (fun c => p c = true) s.
Proof.
  split.
  - intros H. apply lang_plus_class in H as (c & t & -> & Hc & Ht).
    split; [discriminate | now constructor].
  - intros [Hne HF]. destruct s as [|c s]; [contradiction|].
    inversion HF; subst. unfold Plus.
    change (c :: s) with ([c] ++ s). constructor; [now constructor|].
    clear Hne HF H1. induction s as [|c' s IH]; [constructor|].
    inversion H2; subst. change (c' :: s) with ([c'] ++ s).
    constructor; [now constructor | now apply IH].
Qed.

(** X2: [semverLike] accepts exactly three non-empty runs of ASCII digits
    separated by two dots: no sign, no leading 'v', no space, no fourth
    component. *)
Theorem semverLike_iff (s : string) :
  MatchString semverLike s = true <->
  exists major minor patch,
    list_ascii_of_string s = major ++ "."%char :: minor ++ "."%char :: patch
    /\ digits major /\ digits minor /\ digits patch.
Proof.
  unfold MatchString, semverLike, digits. split.
  - intros H. apply matches_lang in H.
    remember (list_ascii_of_string s) as l eqn:El.
    inversion H as [| |? ? a r1 Ha Hr1| | | |]; subst.
    inversion Hr1 as [| |? ? d1 r2 Hd1 Hr2| | | |]; subst.
    inversion Hr2 as [| |? ? b r3 Hb Hr3| | | |]; subst.
    inversion Hr3 as [| |? ? d2 e He Hr4| | | |]; subst.
    inversion Hd1 as [|? c1 Hc1| | | | |]; subst.
    inversion He as [|? c2 Hc2| | | | |]; subst.
    unfold dot in Hc1, Hc2. apply N.eqb_eq in Hc1, Hc2.
    assert (E1 : c1 = "."%char).
    { rewrite <- (ascii_N_embedding c1). unfold byte in Hc1. now rewrite Hc1. }
    assert (E2 : c2 = "."%char).
    { rewrite <- (ascii_N_embedding c2). unfold byte in Hc2. now rewrite Hc2. }
    subst c1 c2. exists a, b, e.
    split; [now symmetry|].
    now rewrite <- !lang_plus_class_iff.
  - intros (a & b & e & -> & Ha & Hb & He). apply lang_matches.
    rewrite <- !lang_plus_class_iff in *.
    constructor; [assumption|].
    change ("."%char :: b ++ "."%char :: e) with (["."%char] ++ b ++ ["."%char] ++ e).
    constructor; [now constructor|]. constructor; [assumption|].
    constructor; [now constructor | assumption].
Qed.

(** ** What [Validate] accepts *)

Lemma flat_map_nil_iff {A B : Type} (f : A -> list B) (l : list A) :
  flat_map f l = [] <-> forall a, In a l -> f a = [].
Proof.
  induction l as [|a l IH]; simpl.
  - split; [intros _ ? [] | reflexivity].
  - split.
    + intros H. apply app_eq_nil in H as [Ha Hl]. rewrite IH in Hl.
      intros b [<-|Hb]; auto.
    + intros H. rewrite (H a) by now left. simpl. apply IH. auto.
Qed.

Lemma existsb_populated pairs :
  existsb (fun p : string * string => nonBlank (snd p)) pairs = true <->
  exists p : string * string, In p pairs /\ blank (snd p) = false.
Proof.
  rewrite existsb_exists. unfold nonBlank.
  split; intros (p & Hin & Hp); exists p; (split; [assumption|]);
    destruct (blank (snd p)); simpl in *; congruence.
Qed.

Lemma entryViolations_nil e : entryViolations e = [] <-> validEntry e.
Proof.
  unfold entryViolations, validEntry, keyViolations, checksumViolations,
    noneViolations.
  split.
  - intros H. apply app_eq_nil in H as [Hk H].
    apply app_eq_nil in H as [Hc Hn].
    split; [|split].
    + destruct (MatchString semverLike (NormalizeVersion (fst e)));
        [reflexivity | discriminate].
    + intros p Hin Hb. rewrite flat_map_nil_iff in Hc. specialize (Hc p Hin).
      unfold nonBlank in Hc. rewrite Hb in Hc. simpl in Hc.
      destruct (MatchString hexSHA256 (snd p)); [reflexivity | discriminate].
    + apply existsb_populated.
      destruct (existsb _ (checkPairs (snd e))); [reflexivity | discriminate].
  - intros (Hk & Hc & Hn). apply existsb_populated in Hn.
    rewrite Hk, Hn, app_nil_r. cbn [app].
    apply flat_map_nil_iff. intros p Hin. unfold nonBlank.
    destruct (blank (snd p)) eqn:Hb; [reflexivity|].
    now rewrite (Hc p Hin Hb).
Qed.

Lemma violations_nil db : violations nonBlank db = [] <-> wellFormed db.
Proof.
  unfold violations, wellFormed. split.
  - intros H. apply app_eq_nil in H as [Hs H].
    apply app_eq_nil in H as [He H].
    apply app_eq_nil in H as [Hk H].
    apply app_eq_nil in H as [Hc Hn].
    split; [|split].
    + destruct (Z.eqb_spec (db_SchemaVersion db) SchemaVersion);
        [assumption | discriminate].
    + destruct (decide (entries db = ∅)); [discriminate | assumption].
    + intros ver pcs Hl. apply entryViolations_nil. unfold entryViolations.
      apply elem_of_map_to_list, list_elem_of_In in Hl.
      rewrite flat_map_nil_iff in Hk, Hc, Hn.
      now rewrite (Hk _ Hl), (Hc _ Hl), (Hn _ Hl).
  - intros (Hs & He & Hv). rewrite Hs, Z.eqb_refl.
    destruct (decide (entries db = ∅)); [contradiction|]. simpl.
    assert (H : forall e, In e (map_to_list (entries db)) -> entryViolations e = []).
    { intros [ver pcs] Hin. apply entryViolations_nil, Hv.
      now apply elem_of_map_to_list, list_elem_of_In. }
    rewrite !(proj2 (flat_map_nil_iff _ _)); [reflexivity | | |];
      intros e Hin; specialize (H e Hin); unfold entryViolations in H;
      apply app_eq_nil in H as [Hk H]; apply app_eq_nil in H as [Hc Hn];
      assumption.
Qed.

Lemma ValidateRange_nil db order :
  Permutation order (map_to_list (entries db)) ->
  (ValidateRange order db = None <-> wellFormed db).
Proof.
  intros Hp. rewrite <- violations_nil.
  pose proof (validateErrs_violations db order Hp) as H.
  unfold ValidateRange. split.
  - destruct (validateErrs order db); [|discriminate]. intros _.
    apply Permutation_nil in H. now destruct (violations nonBlank db).
  - intros Hv. rewrite Hv in H. apply Permutation_sym, Permutation_nil in H.
    now rewrite H.
Qed.

Lemma Validate_wellFormed db : Validate db = None <-> wellFormed db.
Proof. apply ValidateRange_nil. reflexivity. Qed.

(** X3: [Validate] returns nil exactly for the registries whose
    schema_version is 1, whose map is not empty, and whose every entry
    has a key that normalises to a semantic version, a digest in every
    field that is not blank, and a field that is not blank; the order in
    which the map is ranged over does not change the verdict. *)
Theorem Validate_nil_iff (db : VersionsDB)
    (order : list (string * PlatformChecksums)) :
  Permutation order (map_to_list (entries db)) ->
  (Validate db = None <-> wellFormed db) /\
  (ValidateRange order db = None <-> Validate db = None).
Proof.
  intros Hp.
  assert (H : Validate db = None <-> wellFormed db)
    by (apply ValidateRange_nil; reflexivity).
  split; [exact H|]. rewrite H. now apply ValidateRange_nil.
Qed.

Lemma Validate_nil_iff_witness :
  Permutation (map_to_list (entries (bundledDB noon)))
    (map_to_list (entries (bundledDB noon)))
  /\ wellFormed (bundledDB noon).
Proof.
  split; [reflexivity|].
  destruct (Validate_nil_iff (bundledDB noon)
              (map_to_list (entries (bundledDB noon)))) as [[H _] _].
  - reflexivity.
  - apply H. vm_compute. reflexivity.
Defined.

(** ** What a look-up returns *)

Lemma GetExpectedSHA_entry d version pk pcs :
  entries d !! NormalizeVersion version = Some pcs ->
  (forall s, In (pk, s) (checkPairs pcs) ->
     GetExpectedSHA (Some d) version pk = (s, negb (String.eqb s EmptyString)))
  /\ (GetExpectedSHA (Some d) version pk = (EmptyString, false)
      \/ In (pk, fst (GetExpectedSHA (Some d) version pk)) (checkPairs pcs)).
Proof.
  intros Hl. unfold GetExpectedSHA. rewrite Hl. split.
  - intros s Hin. unfold checkPairs in Hin. simpl in Hin.
    repeat (destruct Hin as [Hin|Hin]; [injection Hin as <- <-; reflexivity|]).
    destruct Hin.
  - unfold checkPairs.
    repeat match goal with
      | |- context [String.eqb ?a ?b] =>
        destruct (String.eqb_spec a b); [subst; right; simpl; tauto|]
      end.
    now left.
Qed.

Lemma GetExpectedSHA_found d version platformKey s :
  GetExpectedSHA (Some d) version platformKey = (s, true) ->
  exists pcs,
    entries d !! NormalizeVersion version = Some pcs
    /\ In (platformKey, s) (checkPairs pcs) /\ s <> EmptyString.
Proof.
  intros H.
  destruct (entries d !! NormalizeVersion version) as [pcs|] eqn:Hl.
  - exists pcs. split; [reflexivity|].
    destruct (GetExpectedSHA_entry d version platformKey pcs Hl) as [Hf [He|Hin]].
    + rewrite He in H. discriminate.
    + rewrite H in Hin. cbn [fst] in Hin. split; [assumption|].
      rewrite (Hf s Hin) in H. injection H as H.
      intros ->. discriminate.
  - unfold GetExpectedSHA in H. rewrite Hl in H. discriminate.
Qed.

(** In a valid registry a field that is not blank is a digest of 64
    bytes. *)
Lemma wellFormed_field d ver pcs pk s :
  wellFormed d -> entries d !! ver = Some pcs ->
  In (pk, s) (checkPairs pcs) -> blank s = false ->
  MatchString hexSHA256 s = true /\ String.length s = 64%nat.
Proof.
  intros (_ & _ & Hv) Hl Hin Hb. destruct (Hv _ _ Hl) as (_ & Hc & _).
  specialize (Hc (pk, s) Hin Hb). cbn [snd] in Hc. split; [assumption|].
  unfold MatchString, hexSHA256 in Hc.
  apply matches_lang, lang_rep_class in Hc as [Hlen _].
  now rewrite length_list_ascii_of_string in Hlen.
Qed.

(** X4: [GetExpectedSHA] finds a digest exactly when the map has an entry
    under the normalised version whose field for the platform key is that
    digest and is not empty; a found digest is never the empty string. *)
Theorem GetExpectedSHA_found_iff (d : VersionsDB)
    (version platformKey s : string) :
  GetExpectedSHA (Some d) version platformKey = (s, true) <->
  exists pcs,
    entries d !! NormalizeVersion version = Some pcs
    /\ In (platformKey, s) (checkPairs pcs) /\ s <> EmptyString.
Proof.
  split; [apply GetExpectedSHA_found|].
  intros (pcs & Hl & Hin & Hne).
  destruct (GetExpectedSHA_entry d version platformKey pcs Hl) as [Hf _].
  rewrite (Hf s Hin). f_equal.
  destruct (String.eqb_spec s EmptyString); [contradiction | reflexivity].
Qed.

(** X5: in a registry that [Validate] accepts, a digest that
    [GetExpectedSHA] finds is 64 lower-case hexadecimal digits unless it
    is blank (white space only), the one case [Validate] lets through. *)
Theorem GetExpectedSHA_validated_digest (d : VersionsDB)
    (version platformKey s : string) :
  Validate d = None ->
  GetExpectedSHA (Some d) version platformKey = (s, true) ->
  blank s = true \/
  (MatchString hexSHA256 s = true /\ String.length s = 64%nat).
Proof.
  intros Hv Hg.
  apply GetExpectedSHA_found in Hg as (pcs & Hl & Hin & _).
  apply Validate_wellFormed in Hv.
  destruct (blank s) eqn:Hb; [now left|]. right.
  exact (wellFormed_field d _ pcs platformKey s Hv Hl Hin Hb).
Qed.

Lemma GetExpectedSHA_validated_digest_witness :
  Validate spaceDB = None
  /\ GetExpectedSHA (Some spaceDB) "v2.31.1" "linux_amd64"
     = (LinuxAMD64 bundledChecksums, true)
  /\ (blank (LinuxAMD64 bundledChecksums) = true \/
      (MatchString hexSHA256 (LinuxAMD64 bundledChecksums) = true
       /\ String.length (LinuxAMD64 bundledChecksums) = 64%nat)).
Proof.
  assert (Hv : Validate spaceDB = None) by (vm_compute; reflexivity).
  assert (Hg : GetExpectedSHA (Some spaceDB) "v2.31.1" "linux_amd64"
               = (LinuxAMD64 bundledChecksums, true))
    by (vm_compute; reflexivity).
  split; [exact Hv|]. split; [exact Hg|].
  exact (GetExpectedSHA_validated_digest spaceDB "v2.31.1" "linux_amd64"
           (LinuxAMD64 bundledChecksums) Hv Hg).
Defined.

(** ** Loading and resolving *)

Lemma loadDBFromPath_nil h fs path o :
  loadDBFromPath h fs path = (o, None) ->
  exists db content,
    o = Some db /\ files fs !! path = Some content
    /\ yaml_Unmarshal h content = inr db /\ Validate db = None.
Proof.
  unfold loadDBFromPath, os_ReadFile.
  repeat case_match; intros Hr; simplify_eq. eauto 10.
Qed.

Lemma loadDBFromPath_error h fs path o e :
  loadDBFromPath h fs path = (o, Some e) -> o = None.
Proof.
  unfold loadDBFromPath. repeat case_match; intros Hr; now simplify_eq.
Qed.

(** X6: with the override variable set to a value that is not blank,
    [LoadOrInstallDB] is [loadDBFromPath] at the trimmed value: the file
    system is left as it was, nothing is installed, and the default
    location is not consulted. *)
Theorem LoadOrInstallDB_override (h : Host) (fs : FS) :
  TrimSpace (Getenv h envVersionsFile) <> EmptyString ->
  LoadOrInstallDB h fs
  = (fs,
     (fst (loadDBFromPath h fs (TrimSpace (Getenv h envVersionsFile))),
      TrimSpace (Getenv h envVersionsFile),
      snd (loadDBFromPath h fs (TrimSpace (Getenv h envVersionsFile))))).
Proof.
  intros Hne. unfold LoadOrInstallDB.
  destruct (String.eqb_spec (TrimSpace (Getenv h envVersionsFile)) EmptyString)
    as [E|_]; [contradiction|]. cbn [negb].
  destruct (loadDBFromPath h fs (TrimSpace (Getenv h envVersionsFile)))
    as [o [e|]] eqn:Hl; [|reflexivity].
  now rewrite (loadDBFromPath_error _ _ _ _ _ Hl).
Qed.

Lemma LoadOrInstallDB_override_witness :
  TrimSpace (Getenv overrideHost envVersionsFile) <> EmptyString
  /\ LoadOrInstallDB overrideHost userFS
     = (userFS,
        (fst (loadDBFromPath overrideHost userFS "/opt/op/versions.yaml"),
         "/opt/op/versions.yaml",
         snd (loadDBFromPath overrideHost userFS "/opt/op/versions.yaml"))).
Proof.
  assert (Hne : TrimSpace (Getenv overrideHost envVersionsFile) <> EmptyString)
    by (vm_compute; discriminate).
  split; [exact Hne|].
  exact (LoadOrInstallDB_override overrideHost userFS Hne).
Defined.

(** X7: whatever [LoadOrInstallDB] does to the file system is done by the
    bootstrap, and only when no override is set and the target is not
    there: otherwise the file system is left as it was. *)
Theorem LoadOrInstallDB_effects (h : Host) (fs : FS) :
  fst (LoadOrInstallDB h fs) = fs \/
  (TrimSpace (Getenv h envVersionsFile) = EmptyString
   /\ targetExists h fs = false
   /\ fst (LoadOrInstallDB h fs) = fst (WriteBundledDBIfMissing h fs)).
Proof.
  unfold LoadOrInstallDB, targetExists.
  destruct (String.eqb_spec (TrimSpace (Getenv h envVersionsFile)) EmptyString)
    as [E|_]; cbn [negb].
  2:{ left. now repeat case_match. }
  destruct (DefaultDBPath h) as [path [e|]]; [now left|].
  destruct (os_Stat h fs path) as [statErr|]; [|left; now repeat case_match].
  destruct (IsNotExist statErr); [|now left].
  right. split; [assumption|]. split; [reflexivity|].
  now repeat case_match.
Qed.

(** X8: [LoadOrInstallDB] returns a registry exactly when it returns no
    error; the registry then has passed [Validate] and is what the file
    at the returned path, as it is after the call, parses to. *)
Theorem LoadOrInstallDB_result (h : Host) (fs : FS) :
  match snd (LoadOrInstallDB h fs) with
  | (o, _, Some _) => o = None
  | (o, path, None) =>
    exists db content,
      o = Some db /\ Validate db = None
      /\ files (fst (LoadOrInstallDB h fs)) !! path = Some content
      /\ yaml_Unmarshal h content = inr db
  end.
Proof.
  unfold LoadOrInstallDB.
  repeat (case_match; simplify_eq; cbn [fst snd] in * ); try reflexivity;
    match goal with
    | Hl : loadDBFromPath _ _ _ = (_, None) |- _ =>
      apply loadDBFromPath_nil in Hl as (db & content & -> & Hf & Hy & Hv);
      eauto 10
    end.
Qed.

Lemma LoadOrInstallDB_nil h fs fs1 o path :
  LoadOrInstallDB h fs = (fs1, (o, path, None)) ->
  exists db, o = Some db /\ Validate db = None.
Proof.
  unfold LoadOrInstallDB.
  repeat (case_match; simplify_eq; cbn [fst snd] in * ); intros Hr;
    simplify_eq;
    match goal with
    | Hl : loadDBFromPath _ _ _ = (_, None) |- _ =>
      apply loadDBFromPath_nil in Hl as (db & content & -> & Hf & Hy & Hv);
      eauto
    end.
Qed.

(** X9: a digest that [ExpectedSHAFromDB] returns without error is 64
    lower-case hexadecimal digits: it is the non-empty field, for the key
    of the running platform, of the entry for the normalised version in a
    registry that was loaded and has passed [Validate]. *)
Theorem ExpectedSHAFromDB_digest (h : Host) (fs fs1 : FS)
    (version sha : string) :
  ExpectedSHAFromDB h fs version = (fs1, (sha, None)) ->
  MatchString hexSHA256 sha = true /\ String.length sha = 64%nat /\
  exists db path pk,
    LoadOrInstallDB h fs = (fs1, (Some db, path, None))
    /\ Validate db = None
    /\ ComputePlatformKey (GOOS h) (GOARCH h) = (pk, None)
    /\ GetExpectedSHA (Some db) version pk = (sha, true).
Proof.
  unfold ExpectedSHAFromDB.
  destruct (LoadOrInstallDB h fs) as [fs' [[o path] [e|]]] eqn:Hl;
    [discriminate|].
  destruct (LoadOrInstallDB_nil h fs fs' o path Hl) as (db & -> & Hv).
  destruct (ComputePlatformKey (GOOS h) (GOARCH h)) as [pk [e|]] eqn:Hk;
    [discriminate|].
  destruct (GetExpectedSHA (Some db) version pk) as [s ok] eqn:Hg.
  destruct ok; cbn [negb orb].
  2:{ discriminate. }
  destruct (String.eqb (TrimSpace s) EmptyString) eqn:Hb; [discriminate|].
  intros H. injection H as <- <-.
  pose proof Hg as Hg'.
  apply GetExpectedSHA_found in Hg' as (pcs & Hl' & Hin & _).
  destruct (wellFormed_field db _ pcs pk s (proj1 (Validate_wellFormed db) Hv)
              Hl' Hin Hb) as [Hm Hlen].
  split; [assumption|]. split; [assumption|]. eauto 10.
Qed.

Lemma ExpectedSHAFromDB_digest_witness :
  snd (ExpectedSHAFromDB (sampleHost noon) emptyFS "v2.31.1")
  = (LinuxAMD64 bundledChecksums, None)
  /\ MatchString hexSHA256 (LinuxAMD64 bundledChecksums) = true
  /\ String.length (LinuxAMD64 bundledChecksums) = 64%nat.
Proof.
  assert (H : ExpectedSHAFromDB (sampleHost noon) emptyFS "v2.31.1"
              = (fst (ExpectedSHAFromDB (sampleHost noon) emptyFS "v2.31.1"),
                 (LinuxAMD64 bundledChecksums, None)))
    by (vm_compute; reflexivity).
  split; [now rewrite H|].
  destruct (ExpectedSHAFromDB_digest _ _ _ _ _ H) as (Hm & Hlen & _).
  split; assumption.
Defined.

(** X10: the file-system effect of [ExpectedSHAFromDB] is that of
    [LoadOrInstallDB], whatever the version and the platform.  When it
    returns an error the digest is empty, and the error is, in this
    order of precedence, the error of [LoadOrInstallDB] as it is, else
    the unsupported-platform error of [ComputePlatformKey], else an
    error that wraps [ErrUnsupportedVersion] and names the normalised
    version. *)
Theorem ExpectedSHAFromDB_errors (h : Host) (fs : FS) (version : string) :
  fst (ExpectedSHAFromDB h fs version) = fst (LoadOrInstallDB h fs) /\
  forall e, snd (snd (ExpectedSHAFromDB h fs version)) = Some e ->
    fst (snd (ExpectedSHAFromDB h fs version)) = EmptyString /\
    (snd (snd (LoadOrInstallDB h fs)) = Some e \/
     (snd (snd (LoadOrInstallDB h fs)) = None /\
      (snd (ComputePlatformKey (GOOS h) (GOARCH h)) = Some e \/
       (snd (ComputePlatformKey (GOOS h) (GOARCH h)) = None /\
        Unwrap e = Some ErrUnsupportedVersion /\
        Error e = "unsupported 1Password CLI version: "
                  +:+ NormalizeVersion version)))).
Proof.
  unfold ExpectedSHAFromDB.
  destruct (LoadOrInstallDB h fs) as [fs' [[o path] [e0|]]]; cbn [fst snd].
  { split; [reflexivity|]. intros e H. injection H as <-. auto. }
  destruct (ComputePlatformKey (GOOS h) (GOARCH h)) as [pk [e0|]]; cbn [fst snd].
  { split; [reflexivity|]. intros e H. injection H as <-. auto. }
  destruct (GetExpectedSHA o version pk) as [s ok].
  destruct (negb ok || String.eqb (TrimSpace s) EmptyString)%bool;
    cbn [fst snd]; (split; [reflexivity|]); intros e H; [|discriminate].
  injection H as <-. split; [reflexivity|]. right. split; [reflexivity|].
  right. split; [reflexivity|]. split; reflexivity.
Qed.

Lemma ExpectedSHAFromDB_errors_witness :
  snd (ExpectedSHAFromDB (sampleHost noon) emptyFS "9.9.9")
  = (EmptyString,
     Some (wrapError "unsupported 1Password CLI version: 9.9.9"
             ErrUnsupportedVersion))
  /\ snd (ExpectedSHAFromDB riscvHost emptyFS "2.31.1")
     = (EmptyString,
        Some (errorString "unsupported platform: linux_riscv64"))
  /\ files (fst (ExpectedSHAFromDB riscvHost emptyFS "2.31.1")) !! samplePath
     = Some (bundledVersionsYAML noon)
  /\ fst (snd (ExpectedSHAFromDB (sampleHost noon) emptyFS "9.9.9"))
     = EmptyString.
Proof.
  assert (H : snd (snd (ExpectedSHAFromDB (sampleHost noon) emptyFS "9.9.9"))
              = Some (wrapError "unsupported 1Password CLI version: 9.9.9"
                        ErrUnsupportedVersion))
    by (vm_compute; reflexivity).
  split; [vm_compute; reflexivity|]. split; [vm_compute; reflexivity|].
  split; [vm_compute; reflexivity|].
  destruct (ExpectedSHAFromDB_errors (sampleHost noon) emptyFS "9.9.9")
    as [_ He].
  destruct (He _ H) as [Hs _]. exact Hs.
Defined.

(** ** What the bootstrap does to the file system *)

Lemma newEvents_app h fs evs :
  log (fst (WriteBundledDBIfMissing h fs)) = log fs ++ evs ->
  newEvents h fs = evs.
Proof. intros H. unfold newEvents. now rewrite H, drop_app_length. Qed.

(** X11: a call of the bootstrap makes at most two changing calls, in this
    order: [os.MkdirAll] of the directory of the default path with mode
    0700, then [os.WriteFile] of the bundled document to the default path
    with mode 0600. *)
Theorem WriteBundledDBIfMissing_calls (h : Host) (fs : FS) :
  newEvents h fs = [] \/
  exists path,
    DefaultDBPath h = (path, None) /\
    (newEvents h fs = [EvMkdirAll (filepath_Dir h path) perm0700] \/
     newEvents h fs
     = [EvMkdirAll (filepath_Dir h path) perm0700;
        EvWriteFile path (bundledVersionsYAML (initTime h)) perm0600]).
Proof.
  assert (H : forall evs,
             log (fst (WriteBundledDBIfMissing h fs)) = log fs ++ evs ->
             newEvents h fs = evs) by apply newEvents_app.
  unfold WriteBundledDBIfMissing in H.
  destruct (DefaultDBPath h) as [path [e|]] eqn:Hp.
  { left. apply H. now rewrite app_nil_r. }
  unfold os_MkdirAll, os_WriteFile in H.
  repeat (case_match; simplify_eq; cbn [fst snd log] in H);
    first
      [ left; apply H; now rewrite app_nil_r
      | right; exists path; split; [reflexivity|]; left; apply H; reflexivity
      | right; exists path; split; [reflexivity|]; right; apply H;
        now rewrite <- app_assoc ].
Qed.

(** X12: the bootstrap removes nothing and touches no file but its
    target.  Whatever it returns, every path other than the default path
    holds after the call what it held before, and so does the default
    path if it held a file; when it returns nil, the default path holds
    what it held before or, if it held no file, the bundled document;
    every directory that was there is still there. *)
Theorem WriteBundledDBIfMissing_frame (h : Host) (fs : FS) :
  (forall p,
     files (fst (WriteBundledDBIfMissing h fs)) !! p = files fs !! p \/
     (DefaultDBPath h = (p, None) /\ files fs !! p = None)) /\
  (snd (WriteBundledDBIfMissing h fs) = None ->
   forall p,
     files (fst (WriteBundledDBIfMissing h fs)) !! p = files fs !! p \/
     (DefaultDBPath h = (p, None) /\ files fs !! p = None /\
      files (fst (WriteBundledDBIfMissing h fs)) !! p
      = Some (bundledVersionsYAML (initTime h)))) /\
  (forall d, d ∈ dirs fs -> d ∈ dirs (fst (WriteBundledDBIfMissing h fs))).
Proof.
  assert (Hall : forall p,
            files (fst (WriteBundledDBIfMissing h fs)) !! p = files fs !! p \/
            (DefaultDBPath h = (p, None) /\ files fs !! p = None /\
             snd (WriteBundledDBIfMissing h fs) = None /\
             files (fst (WriteBundledDBIfMissing h fs)) !! p
             = Some (bundledVersionsYAML (initTime h)))).
  { intros p. unfold WriteBundledDBIfMissing.
    destruct (DefaultDBPath h) as [path [e|]] eqn:Hp; [now left|].
    unfold os_Stat, os_MkdirAll, os_WriteFile.
    repeat (case_match; simplify_eq; cbn [fst snd files] in * ); try (now left);
      try match goal with
        | Hf : negb (IsNotExist (PathError _ _ (faultErrno ?f))) = false |- _ =>
          destruct f; discriminate Hf
        end;
      (destruct (decide (path = p)) as [->|Hne];
       [right; rewrite lookup_insert_eq; auto
       | left; now rewrite lookup_insert_ne]). }
  split; [|split].
  - intros p. destruct (Hall p) as [H|(Hp & Hf & _)]; [now left | now right].
  - intros _ p. destruct (Hall p) as [H|(Hp & Hf & _ & Hb)]; [now left|].
    right. auto.
  - intros d Hin. unfold WriteBundledDBIfMissing.
    unfold os_MkdirAll, os_WriteFile.
    repeat (case_match; simplify_eq; cbn [fst snd dirs] in * ); set_solver.
Qed.

Lemma WriteBundledDBIfMissing_frame_witness :
  snd (WriteBundledDBIfMissing (sampleHost noon) emptyFS) = None
  /\ (files (fst (WriteBundledDBIfMissing (sampleHost noon) emptyFS))
        !! samplePath = files emptyFS !! samplePath
      \/ (DefaultDBPath (sampleHost noon) = (samplePath, None)
          /\ files emptyFS !! samplePath = None
          /\ files (fst (WriteBundledDBIfMissing (sampleHost noon) emptyFS))
               !! samplePath
             = Some (bundledVersionsYAML (initTime (sampleHost noon))))).
Proof.
  assert (Hr : snd (WriteBundledDBIfMissing (sampleHost noon) emptyFS) = None)
    by (vm_compute; reflexivity).
  destruct (WriteBundledDBIfMissing_frame (sampleHost noon) emptyFS)
    as (_ & H & _).
  split; [exact Hr | exact (H Hr samplePath)].
Defined.

Lemma WriteBundledDBIfMissing_wrote h fs path :
  DefaultDBPath h = (path, None) -> targetExists h fs = false ->
  snd (WriteBundledDBIfMissing h fs) = None ->
  files (fst (WriteBundledDBIfMissing h fs)) !! path
  = Some (bundledVersionsYAML (initTime h))
  /\ exists db,
       yaml_Unmarshal h (bundledVersionsYAML (initTime h)) = inr db
       /\ Validate db = None.
Proof.
  unfold targetExists, WriteBundledDBIfMissing. intros Hp. rewrite Hp.
  unfold os_MkdirAll, os_WriteFile.
  repeat (case_match; simplify_eq; cbn [fst snd files] in * );
    intros; try discriminate.
  rewrite lookup_insert_eq. eauto.
Qed.

(** X13: installing and then loading gives the bundled registry.  With no
    override set and the target not there, if the bootstrap returns nil
    and the new file can be read, [LoadOrInstallDB] returns the default
    path and the registry the bundled document parses to, which has
    passed [Validate], and the file holds the bundled document. *)
Theorem LoadOrInstallDB_installs_bundled (h : Host) (fs : FS) (path : string) :
  TrimSpace (Getenv h envVersionsFile) = EmptyString ->
  DefaultDBPath h = (path, None) ->
  targetExists h fs = false ->
  snd (WriteBundledDBIfMissing h fs) = None ->
  readFault h path = None ->
  exists db,
    LoadOrInstallDB h fs
    = (fst (WriteBundledDBIfMissing h fs), (Some db, path, None))
    /\ yaml_Unmarshal h (bundledVersionsYAML (initTime h)) = inr db
    /\ Validate db = None
    /\ files (fst (WriteBundledDBIfMissing h fs)) !! path
       = Some (bundledVersionsYAML (initTime h)).
Proof.
  intros Ho Hp Ht Hw Hr.
  destruct (WriteBundledDBIfMissing_wrote h fs path Hp Ht Hw)
    as (Hf & db & Hy & Hv).
  exists db. split; [|auto].
  unfold LoadOrInstallDB. rewrite Ho, Hp. cbn [String.eqb negb].
  unfold targetExists in Ht. rewrite Hp in Ht.
  destruct (os_Stat h fs path) as [statErr|] eqn:Hs; [|discriminate].
  assert (Hn : IsNotExist statErr = true).
  { unfold WriteBundledDBIfMissing in Hw. rewrite Hp, Hs in Hw.
    destruct (IsNotExist statErr); [reflexivity | discriminate]. }
  rewrite Hn.
  destruct (WriteBundledDBIfMissing h fs) as [fs1 e] eqn:Hb.
  cbn [fst snd] in *. subst e.
  unfold loadDBFromPath, os_ReadFile. now rewrite Hr, Hf, Hy, Hv.
Qed.

Lemma LoadOrInstallDB_installs_bundled_witness :
  exists db,
    LoadOrInstallDB (sampleHost noon) emptyFS
    = (fst (WriteBundledDBIfMissing (sampleHost noon) emptyFS),
       (Some db, samplePath, None))
    /\ Validate db = None.
Proof.
  assert (Ho : TrimSpace (Getenv (sampleHost noon) envVersionsFile) = EmptyString)
    by (vm_compute; reflexivity).
  assert (Hp : DefaultDBPath (sampleHost noon) = (samplePath, None))
    by (vm_compute; reflexivity).
  assert (Ht : targetExists (sampleHost noon) emptyFS = false)
    by (vm_compute; reflexivity).
  assert (Hw : snd (WriteBundledDBIfMissing (sampleHost noon) emptyFS) = None)
    by (vm_compute; reflexivity).
  assert (Hr : readFault (sampleHost noon) samplePath = None) by reflexivity.
  destruct (LoadOrInstallDB_installs_bundled (sampleHost noon) emptyFS
              samplePath Ho Hp Ht Hw Hr) as (db & H & _ & Hv & _).
  exists db. split; assumption.
Defined.

(** X14: how the bootstrap fails.  A failure of [os.Stat] other than
    not-exist is returned as it is and nothing is attempted.  A failure of
    [os.MkdirAll] is returned wrapped, its message naming the directory,
    and no write is attempted.  A failure of [os.WriteFile] is returned
    wrapped, its message naming the path, and every file other than the
    target is as it was; what the target holds then depends on how far
    the write went, and is left open. *)
Theorem WriteBundledDBIfMissing_failures (h : Host) (fs : FS) (path : string) :
  DefaultDBPath h = (path, None) ->
  (forall f, statFault h path = Some f ->
     WriteBundledDBIfMissing h fs
     = (fs, Some (PathError "stat" path (faultErrno f)))) /\
  (forall cause,
     os_Stat h fs path = Some (PathError "stat" path ENOENT) ->
     snd (os_MkdirAll h fs (filepath_Dir h path) perm0700) = Some cause ->
     exists e,
       snd (WriteBundledDBIfMissing h fs) = Some e /\ Unwrap e = Some cause
       /\ Error e = "failed to create config directory "
                    +:+ filepath_Dir h path +:+ ": " +:+ Error cause
       /\ newEvents h fs = [EvMkdirAll (filepath_Dir h path) perm0700]
       /\ files (fst (WriteBundledDBIfMissing h fs)) = files fs) /\
  (forall fs1 cause,
     os_Stat h fs path = Some (PathError "stat" path ENOENT) ->
     os_MkdirAll h fs (filepath_Dir h path) perm0700 = (fs1, None) ->
     bundleCheck h = None ->
     snd (os_WriteFile h fs1 path (bundledVersionsYAML (initTime h)) perm0600)
     = Some cause ->
     exists e,
       snd (WriteBundledDBIfMissing h fs) = Some e /\ Unwrap e = Some cause
       /\ Error e = "failed to write versions DB to " +:+ path +:+ ": "
                    +:+ Error cause
       /\ forall p, p <> path ->
            files (fst (WriteBundledDBIfMissing h fs)) !! p = files fs !! p).
Proof.
  intros Hp. split; [|split].
  - intros f Hf. unfold WriteBundledDBIfMissing, os_Stat. rewrite Hp, Hf.
    now destruct f.
  - intros cause Hs Hm.
    assert (Hl : log (fst (WriteBundledDBIfMissing h fs))
                 = log fs ++ [EvMkdirAll (filepath_Dir h path) perm0700]
                 /\ files (fst (WriteBundledDBIfMissing h fs)) = files fs
                 /\ snd (WriteBundledDBIfMissing h fs)
                    = Some (Errorf_w ("failed to create config directory "
                                      +:+ filepath_Dir h path +:+ ": ") cause)).
    { unfold WriteBundledDBIfMissing. rewrite Hp, Hs. cbn [IsNotExist negb].
      unfold os_MkdirAll in *.
      repeat (case_match; simplify_eq; cbn [fst snd log files] in * );
        try discriminate; simplify_eq; auto. }
    destruct Hl as (Hl & Hf & He). eexists. split; [exact He|].
    split; [reflexivity|]. split.
    + unfold Errorf_w, Error at 1. now rewrite !string_app_assoc.
    + split; [now apply newEvents_app | assumption].
  - intros fs1 cause Hs Hm Hb Hw.
    assert (Hl : files (fst (WriteBundledDBIfMissing h fs)) = files fs
                 /\ snd (WriteBundledDBIfMissing h fs)
                    = Some (Errorf_w ("failed to write versions DB to "
                                      +:+ path +:+ ": ") cause)).
    { unfold WriteBundledDBIfMissing. rewrite Hp, Hs, Hm.
      cbn [IsNotExist negb]. unfold bundleCheck in Hb.
      destruct (yaml_Unmarshal h (bundledVersionsYAML (initTime h)))
        as [e|db]; [discriminate|].
      destruct (Validate db); [discriminate|].
      unfold os_MkdirAll, os_WriteFile in *.
      repeat (case_match; simplify_eq; cbn [fst snd log files] in * );
        try discriminate; simplify_eq; auto. }
    destruct Hl as (Hf & He). eexists. split; [exact He|].
    split; [reflexivity|]. split; [|intros p _; now rewrite Hf].
    unfold Errorf_w, Error at 1. now rewrite !string_app_assoc.
Qed.

Lemma WriteBundledDBIfMissing_failures_witness :
  WriteBundledDBIfMissing (faultyHost (Some Denied) None None None) emptyFS
  = (emptyFS, Some (PathError "stat" samplePath EACCES))
  /\ (exists e,
        snd (WriteBundledDBIfMissing (faultyHost None (Some ReadOnly) None None)
               emptyFS) = Some e
        /\ Unwrap e = Some (PathError "mkdir" (unixDir samplePath) EROFS))
  /\ (exists e,
        snd (WriteBundledDBIfMissing (faultyHost None None (Some Denied) None)
               emptyFS) = Some e
        /\ Unwrap e = Some (PathError "open" samplePath EACCES)).
Proof.
  assert (Hp : forall sf mf wf rf,
             DefaultDBPath (faultyHost sf mf wf rf) = (samplePath, None))
    by (intros; vm_compute; reflexivity).
  destruct (WriteBundledDBIfMissing_failures
              (faultyHost (Some Denied) None None None) emptyFS samplePath
              (Hp _ _ _ _)) as (H1 & _).
  destruct (WriteBundledDBIfMissing_failures
              (faultyHost None (Some ReadOnly) None None) emptyFS samplePath
              (Hp _ _ _ _)) as (_ & H2 & _).
  destruct (WriteBundledDBIfMissing_failures
              (faultyHost None None (Some Denied) None) emptyFS samplePath
              (Hp _ _ _ _)) as (_ & _ & H3).
  split; [exact (H1 Denied eq_refl)|]. split.
  - assert (Hs : os_Stat (faultyHost None (Some ReadOnly) None None) emptyFS
                   samplePath = Some (PathError "stat" samplePath ENOENT))
      by (vm_compute; reflexivity).
    assert (Hm : snd (os_MkdirAll (faultyHost None (Some ReadOnly) None None)
                        emptyFS
                        (filepath_Dir (faultyHost None (Some ReadOnly) None None)
                           samplePath) perm0700)
                 = Some (PathError "mkdir" (unixDir samplePath) EROFS))
      by (vm_compute; reflexivity).
    destruct (H2 _ Hs Hm) as (e & He & Hu & _).
    exists e. split; assumption.
  - assert (Hs : os_Stat (faultyHost None None (Some Denied) None) emptyFS
                   samplePath = Some (PathError "stat" samplePath ENOENT))
      by (vm_compute; reflexivity).
    assert (Hm : os_MkdirAll (faultyHost None None (Some Denied) None) emptyFS
                   (filepath_Dir (faultyHost None None (Some Denied) None)
                      samplePath) perm0700
                 = (fst (os_MkdirAll (faultyHost None None (Some Denied) None)
                           emptyFS (unixDir samplePath) perm0700), None))
      by (vm_compute; reflexivity).
    assert (Hb : bundleCheck (faultyHost None None (Some Denied) None) = None)
      by (vm_compute; reflexivity).
    assert (Hw : snd (os_WriteFile (faultyHost None None (Some Denied) None)
                        (fst (os_MkdirAll
                                (faultyHost None None (Some Denied) None)
                                emptyFS (unixDir samplePath) perm0700))
                        samplePath
                        (bundledVersionsYAML
                           (initTime (faultyHost None None (Some Denied) None)))
                        perm0600)
                 = Some (PathError "open" samplePath EACCES))
      by (vm_compute; reflexivity).
    destruct (H3 _ _ Hs Hm Hb Hw) as (e & He & Hu & _).
    exists e. split; assumption.
Defined.

(** ** Extension and look-up together *)

Lemma ExtendDB_nil db version checksums :
  snd (ExtendDB db version checksums) = None ->
  db_SchemaVersion db = SchemaVersion
  /\ validEntry (NormalizeVersion version, checksums)
  /\ db_SchemaVersion (fst (ExtendDB db version checksums)) = db_SchemaVersion db
  /\ entries (fst (ExtendDB db version checksums))
     = <[ NormalizeVersion version := checksums ]> (entries db).
Proof.
  unfold ExtendDB.
  set (scratch := {| db_SchemaVersion := _; db_GeneratedAt := EmptyString;
                     db_Versions := Some {[ _ := checksums ]} |}).
  destruct (Validate scratch) as [e|] eqn:Hv; [discriminate|]. intros _.
  apply Validate_wellFormed in Hv.
  destruct Hv as (Hs & _ & He).
  assert (Hsv : db_SchemaVersion db = SchemaVersion).
  { subst scratch. cbn [db_SchemaVersion] in Hs. now destruct (db_Versions db). }
  split; [assumption|]. split.
  - apply He. subst scratch. unfold entries. cbn [db_Versions].
    apply lookup_singleton_eq.
  - destruct db as [sv ga [m|]]; cbn [fst db_SchemaVersion db_Versions];
      auto.
Qed.

(** X15: an extension that succeeds leaves a registry that [Validate]
    accepts exactly when every other entry of the registry was valid; in
    particular a registry that was valid stays valid, and a registry
    without entries becomes valid. *)
Theorem ExtendDB_validity (db : VersionsDB) (version : string)
    (checksums : PlatformChecksums) :
  snd (ExtendDB db version checksums) = None ->
  (Validate (fst (ExtendDB db version checksums)) = None <->
   forall ver pcs,
     ver <> NormalizeVersion version -> entries db !! ver = Some pcs ->
     validEntry (ver, pcs)) /\
  (Validate db = None -> Validate (fst (ExtendDB db version checksums)) = None).
Proof.
  intros Hok.
  destruct (ExtendDB_nil db version checksums Hok) as (Hs & Hnew & Hs' & He).
  assert (Hiff : Validate (fst (ExtendDB db version checksums)) = None <->
                 forall ver pcs,
                   ver <> NormalizeVersion version ->
                   entries db !! ver = Some pcs -> validEntry (ver, pcs)).
  { rewrite Validate_wellFormed.
    unfold wellFormed. rewrite Hs', He. split.
    - intros (_ & _ & Hv) ver pcs Hne Hl. apply Hv.
      now rewrite lookup_insert_ne.
    - intros Hv. split; [assumption|]. split.
      + intros Hem. apply (f_equal (fun m => m !! NormalizeVersion version)) in Hem.
        rewrite lookup_insert_eq, lookup_empty in Hem. discriminate.
      + intros ver pcs Hl.
        destruct (decide (ver = NormalizeVersion version)) as [->|Hne].
        * rewrite lookup_insert_eq in Hl. now injection Hl as <-.
        * rewrite lookup_insert_ne in Hl by congruence. now apply Hv. }
  split; [exact Hiff|].
  intros Hv. apply Hiff. intros ver pcs _ Hl.
  apply Validate_wellFormed in Hv.
  destruct Hv as (_ & _ & Hv). now apply Hv.
Qed.

Lemma ExtendDB_validity_witness :
  snd (ExtendDB nilMapDB "v3.0.0" bundledChecksums) = None
  /\ Validate nilMapDB <> None
  /\ Validate (fst (ExtendDB nilMapDB "v3.0.0" bundledChecksums)) = None.
Proof.
  assert (Hok : snd (ExtendDB nilMapDB "v3.0.0" bundledChecksums) = None)
    by (vm_compute; reflexivity).
  split; [exact Hok|]. split; [vm_compute; discriminate|].
  destruct (ExtendDB_validity nilMapDB "v3.0.0" bundledChecksums Hok)
    as [Hiff _].
  apply Hiff. intros ver pcs _ Hl. vm_compute in Hl. discriminate Hl.
Defined.

(** X16: what was added is what is found.  After an extension that
    succeeds, a look-up of the same version returns, for each platform
    key, the field of the new record (found when it is not empty), and a
    look-up of a version that normalises to another key returns what it
    returned before. *)
Theorem ExtendDB_then_GetExpectedSHA (db : VersionsDB)
    (version : string) (checksums : PlatformChecksums) :
  snd (ExtendDB db version checksums) = None ->
  (forall pk s, In (pk, s) (checkPairs checksums) ->
     GetExpectedSHA (Some (fst (ExtendDB db version checksums))) version pk
     = (s, negb (String.eqb s EmptyString))) /\
  (forall other pk,
     NormalizeVersion other <> NormalizeVersion version ->
     GetExpectedSHA (Some (fst (ExtendDB db version checksums))) other pk
     = GetExpectedSHA (Some db) other pk).
Proof.
  intros Hok.
  destruct (ExtendDB_nil db version checksums Hok) as (_ & _ & _ & He).
  split.
  - intros pk s Hin.
    apply (GetExpectedSHA_entry _ version pk checksums); [|assumption].
    rewrite He. apply lookup_insert_eq.
  - intros other pk Hne. unfold GetExpectedSHA.
    rewrite He, lookup_insert_ne by congruence. reflexivity.
Qed.

Lemma ExtendDB_then_GetExpectedSHA_witness :
  snd (ExtendDB (bundledDB noon) "v3.0.0" spaceChecksums) = None
  /\ GetExpectedSHA
       (Some (fst (ExtendDB (bundledDB noon) "v3.0.0" spaceChecksums)))
       "v3.0.0" "linux_amd64"
     = (LinuxAMD64 bundledChecksums, true)
  /\ GetExpectedSHA
       (Some (fst (ExtendDB (bundledDB noon) "v3.0.0" spaceChecksums)))
       "2.31.1" "darwin_arm64"
     = GetExpectedSHA (Some (bundledDB noon)) "2.31.1" "darwin_arm64".
Proof.
  assert (Hok : snd (ExtendDB (bundledDB noon) "v3.0.0" spaceChecksums) = None)
    by (vm_compute; reflexivity).
  destruct (ExtendDB_then_GetExpectedSHA (bundledDB noon) "v3.0.0"
              spaceChecksums Hok) as [H1 H2].
  split; [exact Hok|]. split.
  - apply (H1 "linux_amd64" (LinuxAMD64 bundledChecksums)). simpl. tauto.
  - apply H2. vm_compute. discriminate.
Defined.

Lemma ExtendDB_eq db version checksums :
  ExtendDB db version checksums
  = match Validate {| db_SchemaVersion := db_SchemaVersion db;
                      db_GeneratedAt := EmptyString;
                      db_Versions :=
                        Some {[ NormalizeVersion version := checksums ]} |} with
    | Some err =>
      ({| db_SchemaVersion := db_SchemaVersion db;
          db_GeneratedAt := db_GeneratedAt db;
          db_Versions := Some (entries db) |}, Some err)
    | None =>
      ({| db_SchemaVersion := db_SchemaVersion db;
          db_GeneratedAt := db_GeneratedAt db;
          db_Versions :=
            Some (<[ NormalizeVersion version := checksums ]> (entries db)) |},
       None)
    end.
Proof. now destruct db as [sv ga [m|]]. Qed.

(** X17: [ExtendDB] looks at the version through [NormalizeVersion]
    only, and extending twice is extending once: two spellings with the
    same normal form, such as d.d.d and vd.d.d, give the same registry and
    the same error, and a second call with the same arguments changes
    nothing and returns what the first returned. *)
Theorem ExtendDB_spelling_and_repeat (db : VersionsDB)
    (version : string) (checksums : PlatformChecksums) :
  (forall version',
     NormalizeVersion version' = NormalizeVersion version ->
     ExtendDB db version' checksums = ExtendDB db version checksums) /\
  (MatchString semverLike version = true ->
   ExtendDB db ("v" +:+ version) checksums = ExtendDB db version checksums) /\
  ExtendDB (fst (ExtendDB db version checksums)) version checksums
  = ExtendDB db version checksums.
Proof.
  assert (H : forall version',
             NormalizeVersion version' = NormalizeVersion version ->
             ExtendDB db version' checksums = ExtendDB db version checksums).
  { intros version' E. unfold ExtendDB. now rewrite E. }
  split; [exact H|]. split.
  - intros Hm. apply H.
    now rewrite NormalizeVersion_v_semver, NormalizeVersion_semver.
  - rewrite (ExtendDB_eq db).
    destruct (Validate _) as [e|] eqn:Hv; cbn [fst]; rewrite ExtendDB_eq;
      cbn [db_SchemaVersion db_GeneratedAt]; rewrite Hv; unfold entries;
      cbn [db_Versions]; rewrite ?insert_insert_eq; reflexivity.
Qed.

Lemma ExtendDB_spelling_and_repeat_witness :
  MatchString semverLike "3.0.0" = true
  /\ ExtendDB (bundledDB noon) "v3.0.0" bundledChecksums
     = ExtendDB (bundledDB noon) "3.0.0" bundledChecksums
  /\ ExtendDB (bundledDB noon) " 3.0.0 " bundledChecksums
     = ExtendDB (bundledDB noon) "3.0.0" bundledChecksums.
Proof.
  destruct (ExtendDB_spelling_and_repeat (bundledDB noon) "3.0.0"
              bundledChecksums) as (H1 & H2 & _).
  split; [reflexivity|]. split.
  - apply H2. reflexivity.
  - apply H1. vm_compute. reflexivity.
Defined.

(** X18: a registry whose own schema_version is not 1 cannot be
    extended: [ExtendDB] copies the schema_version of the registry into
    the scratch registry, so every call fails with a [ValidationError]
    that lists the wrong schema_version, whatever the entry, and no entry
    changes.  Every error of [ExtendDB] is a [ValidationError]. *)
Theorem ExtendDB_wrong_schema (db : VersionsDB) (version : string)
    (checksums : PlatformChecksums) :
  (forall e, snd (ExtendDB db version checksums) = Some e ->
     exists errs, e = ValidationError errs /\ errs <> []) /\
  (db_SchemaVersion db <> SchemaVersion ->
   exists errs,
     snd (ExtendDB db version checksums) = Some (ValidationError errs)
     /\ In (msgSchema (db_SchemaVersion db)) errs
     /\ entries (fst (ExtendDB db version checksums)) = entries db).
Proof.
  split.
  - unfold ExtendDB. intros e.
    destruct (Validate _) as [e'|] eqn:Hv; [|discriminate].
    intros H. injection H as <-.
    destruct (Validate_error _ _ Hv) as (errs & -> & Hne & _). eauto.
  - intros Hs.
    destruct (snd (ExtendDB db version checksums)) as [e|] eqn:He.
    + assert (Hent : entries (fst (ExtendDB db version checksums)) = entries db).
      { unfold ExtendDB in *. destruct (Validate _); [|discriminate].
        now destruct db as [sv ga [m|]]. }
      unfold ExtendDB in He.
      set (scratch := {| db_SchemaVersion := _; db_GeneratedAt := EmptyString;
                         db_Versions := Some {[ _ := checksums ]} |}) in He.
      destruct (Validate scratch) as [e'|] eqn:Hv; [|discriminate].
      injection He as <-. unfold Validate, ValidateRange in Hv.
      destruct (validateErrs _ scratch) as [|m errs] eqn:Hve; [discriminate|].
      injection Hv as <-. exists (m :: errs). split; [reflexivity|].
      split; [|assumption]. rewrite <- Hve. unfold validateErrs.
      assert (Hsv : db_SchemaVersion scratch = db_SchemaVersion db)
        by (subst scratch; now destruct (db_Versions db)).
      rewrite Hsv.
      destruct (Z.eqb_spec (db_SchemaVersion db) SchemaVersion); [contradiction|].
      destruct (Nat.eqb _ 0).
      * apply in_or_app. left. now left.
      * rewrite fold_validateEntry. apply in_or_app. left. now left.
    + apply ExtendDB_nil in He as (Hs' & _). contradiction.
Qed.

Lemma ExtendDB_wrong_schema_witness :
  db_SchemaVersion schema2DB <> SchemaVersion
  /\ exists errs,
       snd (ExtendDB schema2DB "3.0.0" bundledChecksums)
       = Some (ValidationError errs)
       /\ In "unexpected schema_version=2 (expected 1)" errs.
Proof.
  assert (Hs : db_SchemaVersion schema2DB <> SchemaVersion) by discriminate.
  split; [exact Hs|].
  destruct (ExtendDB_wrong_schema schema2DB "3.0.0" bundledChecksums) as [_ H].
  destruct (H Hs) as (errs & He & Hin & _).
  exists errs. split; assumption.
Defined.

(** X19: a version that normalises to a semantic version is looked up the
    same in its raw, its normalised and its v-prefixed normalised
    spelling, in every registry and for every platform key; surrounding
    white space in the query does not matter. *)
Theorem GetExpectedSHA_spellings (db : option VersionsDB)
    (version platformKey : string) :
  MatchString semverLike (NormalizeVersion version) = true ->
  NormalizeVersion (NormalizeVersion version) = NormalizeVersion version /\
  GetExpectedSHA db (NormalizeVersion version) platformKey
  = GetExpectedSHA db version platformKey /\
  GetExpectedSHA db ("v" +:+ NormalizeVersion version) platformKey
  = GetExpectedSHA db version platformKey.
Proof.
  intros H. split; [now apply NormalizeVersion_semver|].
  unfold GetExpectedSHA. destruct db as [d|]; [|split; reflexivity].
  now rewrite NormalizeVersion_v_semver, NormalizeVersion_semver.
Qed.

Lemma GetExpectedSHA_spellings_witness :
  MatchString semverLike (NormalizeVersion "  v2.31.1 ") = true
  /\ GetExpectedSHA (Some (bundledDB noon)) "2.31.1" "windows_amd64"
     = GetExpectedSHA (Some (bundledDB noon)) "  v2.31.1 " "windows_amd64".
Proof.
  assert (H : MatchString semverLike (NormalizeVersion "  v2.31.1 ") = true)
    by (vm_compute; reflexivity).
  split; [exact H|].
  destruct (GetExpectedSHA_spellings (Some (bundledDB noon)) "  v2.31.1 "
              "windows_amd64" H) as (_ & H1 & _).
  replace "2.31.1" with (NormalizeVersion "  v2.31.1 ") at 1
    by (vm_compute; reflexivity).
  exact H1.
Defined.

(** ** Platform keys *)

(** X20: a key that [ComputePlatformKey] returns is the two identifiers
    joined by an underscore and is one of the five keys [GetExpectedSHA]
    knows; no two pairs share a key, and each of the five keys is the key
    of some pair. *)
Theorem ComputePlatformKey_keys (goos goarch goos' goarch' key : string) :
  ComputePlatformKey goos goarch = (key, None) ->
  key = goos +:+ "_" +:+ goarch /\ In key platformKeys /\
  (ComputePlatformKey goos' goarch' = (key, None) ->
   goos' = goos /\ goarch' = goarch) /\
  (forall k, In k platformKeys ->
     exists os arch, ComputePlatformKey os arch = (k, None)).
Proof.
  intros H.
  assert (Hin : In (goos, goarch) supportedPlatforms).
  { apply succeeds_supported. unfold succeeds. cbn [fst snd]. now rewrite H. }
  split; [|split; [|split]].
  - unfold supportedPlatforms in Hin. simpl in Hin.
    repeat (destruct Hin as [Hin|Hin];
            [injection Hin as <- <-; vm_compute in H; now injection H as <-|]).
    destruct Hin.
  - unfold supportedPlatforms in Hin. simpl in Hin.
    repeat (destruct Hin as [Hin|Hin];
            [injection Hin as <- <-; vm_compute in H; injection H as <-;
             simpl; tauto|]).
    destruct Hin.
  - intros H'.
    assert (Hin' : In (goos', goarch') supportedPlatforms).
    { apply succeeds_supported. unfold succeeds. cbn [fst snd]. now rewrite H'. }
    unfold supportedPlatforms in Hin, Hin'. simpl in Hin, Hin'.
    repeat (destruct Hin as [Hin|Hin];
            [injection Hin as <- <-; vm_compute in H; injection H as <-;
             repeat (destruct Hin' as [Hin'|Hin'];
                     [injection Hin' as <- <-; vm_compute in H';
                      first [discriminate H' | split; reflexivity]|]);
             destruct Hin'|]).
    destruct Hin.
  - intros k Hk. unfold platformKeys in Hk. simpl in Hk.
    destruct Hk as [<-|[<-|[<-|[<-|[<-|[]]]]]].
    + exists "linux", "amd64". reflexivity.
    + exists "linux", "arm64". reflexivity.
    + exists "darwin", "amd64". reflexivity.
    + exists "darwin", "arm64". reflexivity.
    + exists "windows", "amd64". reflexivity.
Qed.

Lemma ComputePlatformKey_keys_witness :
  ComputePlatformKey "darwin" "arm64" = ("darwin_arm64", None)
  /\ "darwin_arm64" = "darwin" +:+ "_" +:+ "arm64"
  /\ In "darwin_arm64" platformKeys.
Proof.
  assert (H : ComputePlatformKey "darwin" "arm64" = ("darwin_arm64", None))
    by reflexivity.
  split; [exact H|].
  destruct (ComputePlatformKey_keys "darwin" "arm64" "linux" "amd64"
              "darwin_arm64" H) as (H1 & H2 & _).
  split; assumption.
Defined.

(** ** The message of a validation error *)

Lemma Contains_unfold s substr :
  Contains s substr
  = if String.prefix substr s then true
    else match s with
         | EmptyString => false
         | String _ s' => Contains s' substr
         end.
Proof. now destruct s. Qed.

Lemma prefix_app m b : String.prefix m (m +:+ b) = true.
Proof.
  induction m as [|c m IH]; [now destruct b|].
  rewrite string_app_cons. simpl.
  destruct (ascii_dec c c); [assumption | contradiction].
Qed.

Lemma Contains_app a m b : Contains (a +:+ m +:+ b) m = true.
Proof.
  induction a as [|c a IH].
  - change (Contains (m +:+ b) m = true).
    now rewrite Contains_unfold, prefix_app.
  - rewrite string_app_cons, Contains_unfold, IH.
    now destruct (String.prefix _ _).
Qed.

Lemma string_app_nil_r s : s +:+ EmptyString = s.
Proof.
  induction s as [|c s IH]; [reflexivity|].
  now rewrite string_app_cons, IH.
Qed.

Lemma Join_In errs sep m :
  In m errs -> exists a b, Join errs sep = a +:+ m +:+ b.
Proof.
  induction errs as [|e rest IH]; [intros []|].
  intros [->|Hin].
  - destruct rest as [|e' rest'].
    + exists EmptyString, EmptyString. simpl.
      change (m = m +:+ EmptyString). now rewrite string_app_nil_r.
    + exists EmptyString, (sep +:+ Join (e' :: rest') sep). reflexivity.
  - destruct (IH Hin) as (a & b & E).
    destruct rest as [|e' rest']; [destruct Hin|].
    exists (e +:+ sep +:+ a), b.
    change (Join (e :: e' :: rest') sep) with (e +:+ sep +:+ Join (e' :: rest') sep).
    rewrite E. now rewrite !string_app_assoc.
Qed.

Lemma ValidationError_Contains errs m :
  In m errs -> Contains (Error (ValidationError errs)) m = true.
Proof.
  intros Hin. destruct (Join_In errs "; " m Hin) as (a & b & E).
  destruct errs as [|e rest]; [destruct Hin|].
  change (Error (ValidationError (e :: rest)))
    with ("schema validation failed: " +:+ Join (e :: rest) "; ").
  rewrite E, <- string_app_assoc. apply Contains_app.
Qed.

Lemma ValidationError_header errs :
  errs <> [] ->
  Error (ValidationError errs)
  = "schema validation failed: " +:+ Join errs "; ".
Proof. now destruct errs. Qed.

(** X21: the message of a [ValidationError].  It is the bare "schema
    validation failed" exactly when the list is empty; for a list that is
    not empty it is "schema validation failed: " followed by the lines
    joined with "; ", so it starts with that header and contains every
    line.  The error [Validate] returns is a [ValidationError] whose list
    is not empty: its message starts with the header, is not the bare
    one, and contains the message of every violation of the document,
    the keys read after [NormalizeVersion] and a field counted as
    populated when it is not blank. *)
Theorem ValidationError_message (db : VersionsDB) (e : error) :
  (forall errs,
     Error (ValidationError errs) = "schema validation failed" <-> errs = []) /\
  (forall errs, errs <> [] ->
     Error (ValidationError errs)
     = "schema validation failed: " +:+ Join errs "; " /\
     String.prefix "schema validation failed: " (Error (ValidationError errs))
     = true) /\
  (forall errs m, In m errs ->
     Contains (Error (ValidationError errs)) m = true) /\
  (Validate db = Some e ->
   exists errs,
     e = ValidationError errs /\ errs <> [] /\
     String.prefix "schema validation failed: " (Error e) = true /\
     Error e <> "schema validation failed" /\
     forall v, In v (violations nonBlank db) ->
       Contains (Error e) (message v) = true).
Proof.
  assert (Hpre : forall errs, errs <> [] ->
            String.prefix "schema validation failed: "
              (Error (ValidationError errs)) = true).
  { intros errs Hne. rewrite (ValidationError_header errs Hne).
    apply prefix_app. }
  assert (Hbare : forall errs, errs <> [] ->
            Error (ValidationError errs) <> "schema validation failed").
  { intros errs Hne Heq. specialize (Hpre errs Hne). rewrite Heq in Hpre.
    vm_compute in Hpre. discriminate Hpre. }
  split; [|split; [|split]].
  - intros errs. split.
    + intros Heq. destruct errs as [|m errs]; [reflexivity|].
      exfalso. now apply (Hbare (m :: errs)).
    + now intros ->.
  - intros errs Hne. split; [now apply ValidationError_header | now apply Hpre].
  - apply ValidationError_Contains.
  - intros Hv.
    pose proof (validateErrs_violations db (map_to_list (entries db))
                  (Permutation_refl _)) as Hp.
    unfold Validate, ValidateRange in Hv.
    destruct (validateErrs _ db) as [|m errs] eqn:Hl; [discriminate|].
    injection Hv as <-. exists (m :: errs).
    assert (Hne : m :: errs <> []) by discriminate.
    split; [reflexivity|]. split; [exact Hne|].
    split; [now apply Hpre|]. split; [now apply Hbare|].
    intros v Hin. apply ValidationError_Contains.
    apply (Permutation_in _ (Permutation_sym Hp)). now apply in_map.
Qed.

Lemma ValidationError_message_witness :
  exists e,
    Validate brokenDB = Some e
    /\ String.prefix "schema validation failed: " (Error e) = true
    /\ Contains (Error e) "version 9.9.9: no platform checksums provided" = true.
Proof.
  destruct (Validate brokenDB) as [e|] eqn:Hv; [|vm_compute in Hv; discriminate Hv].
  exists e. split; [reflexivity|].
  destruct (ValidationError_message brokenDB e) as (_ & _ & _ & H).
  destruct (H Hv) as (errs & _ & _ & Hpre & _ & Hm).
  split; [exact Hpre|].
  apply (Hm (NoChecksums "9.9.9")). vm_compute. tauto.
Defined.

(** ** Where the registry is looked for *)

(** X22: the configuration directory comes from one variable, APPDATA on
    windows and XDG_CONFIG_HOME elsewhere, whose value is returned as it
    is, surrounding white space included, when it is not blank; the other
    variable is never read.  It is an error exactly when the variable is
    blank and no home directory is known, and [DefaultDBPath] then
    fails with the same error and the empty path. *)
Theorem DefaultConfigDir_sources (h h' : Host) :
  let var :=
    if String.eqb (GOOS h) windowsOS then "APPDATA" else "XDG_CONFIG_HOME" in
  (blank (Getenv h var) = false -> DefaultConfigDir h = (Getenv h var, None)) /\
  (snd (DefaultConfigDir h) <> None <->
   blank (Getenv h var) = true /\ snd (UserHomeDir h) <> None) /\
  (GOOS h' = GOOS h -> Getenv h' var = Getenv h var ->
   UserHomeDir h' = UserHomeDir h -> filepath_Join h' = filepath_Join h ->
   DefaultConfigDir h' = DefaultConfigDir h) /\
  snd (DefaultDBPath h) = snd (DefaultConfigDir h) /\
  (snd (DefaultDBPath h) <> None -> fst (DefaultDBPath h) = EmptyString).
Proof.
  unfold DefaultDBPath, DefaultConfigDir, blank.
  split; [|split; [|split; [|split]]].
  - destruct (String.eqb (GOOS h) windowsOS); intros ->; reflexivity.
  - destruct (String.eqb (GOOS h) windowsOS);
      destruct (String.eqb (TrimSpace (Getenv h _)) EmptyString);
      destruct (UserHomeDir h) as [home [e|]]; cbn [negb snd];
      split; try tauto; try congruence; try (intros [? ?]; congruence);
      intros _; split; congruence.
  - intros -> Hg -> ->.
    destruct (String.eqb (GOOS h) windowsOS); now rewrite Hg.
  - repeat case_match; simplify_eq; reflexivity.
  - repeat case_match; simplify_eq; cbn [fst snd]; congruence.
Qed.

Lemma DefaultConfigDir_sources_witness :
  blank (Getenv (sampleHost noon) "XDG_CONFIG_HOME") = true
  /\ snd (UserHomeDir (sampleHost noon)) = None
  /\ snd (DefaultConfigDir (sampleHost noon)) = None
  /\ DefaultConfigDir riscvHost = DefaultConfigDir (sampleHost noon).
Proof.
  destruct (DefaultConfigDir_sources (sampleHost noon) riscvHost)
    as (_ & H2 & H3 & _).
  split; [vm_compute; reflexivity|]. split; [reflexivity|]. split.
  - destruct (snd (DefaultConfigDir (sampleHost noon))) as [e|] eqn:He;
      [|reflexivity].
    assert (Hn : Some e <> None) by discriminate.
    apply H2 in Hn as [_ Hn]. now contradiction Hn.
  - apply H3; reflexivity.
Defined.

(** X23: how [LoadOrInstallDB] fails on the default path.  When the
    default path cannot be determined the error is returned with the
    empty path.  When [os.Stat] fails other than with not-exist, the
    error is returned wrapped as a stat failure, with the default path,
    and nothing is installed.  When the bootstrap fails, its error is
    returned wrapped as an install failure, with the default path, and
    no load is attempted. *)
Theorem LoadOrInstallDB_failures (h : Host) (fs : FS) :
  TrimSpace (Getenv h envVersionsFile) = EmptyString ->
  (forall e, snd (DefaultDBPath h) = Some e ->
     LoadOrInstallDB h fs = (fs, (None, EmptyString, Some e))) /\
  (forall path f,
     DefaultDBPath h = (path, None) -> statFault h path = Some f ->
     LoadOrInstallDB h fs
     = (fs, (None, path,
             Some (Errorf_w "failed to stat versions DB: "
                     (PathError "stat" path (faultErrno f)))))) /\
  (forall path cause,
     DefaultDBPath h = (path, None) -> targetExists h fs = false ->
     (forall f, statFault h path <> Some f) ->
     snd (WriteBundledDBIfMissing h fs) = Some cause ->
     LoadOrInstallDB h fs
     = (fst (WriteBundledDBIfMissing h fs),
        (None, path,
         Some (Errorf_w "failed to install bundled versions DB: " cause)))).
Proof.
  intros Ho. unfold LoadOrInstallDB. rewrite Ho. cbn [String.eqb negb].
  split; [|split].
  - intros e He. destruct (DefaultDBPath h) as [p [e'|]]; cbn [snd] in He;
      now simplify_eq.
  - intros path f -> Hf. unfold os_Stat. rewrite Hf. now destruct f.
  - intros path cause Hp Ht Hnf Hw. rewrite Hp.
    unfold targetExists in Ht. rewrite Hp in Ht.
    destruct (os_Stat h fs path) as [statErr|] eqn:Hs; [|discriminate].
    assert (Hn : IsNotExist statErr = true).
    { unfold os_Stat in Hs.
      destruct (statFault h path) as [f|] eqn:Hf; [now destruct (Hnf f)|].
      repeat case_match; now simplify_eq. }
    rewrite Hn.
    destruct (WriteBundledDBIfMissing h fs) as [fs1 [e|]]; cbn [fst snd] in *;
      now simplify_eq.
Qed.

Lemma LoadOrInstallDB_failures_witness :
  snd (LoadOrInstallDB (faultyHost (Some Denied) None None None) emptyFS)
  = (None, samplePath,
     Some (Errorf_w "failed to stat versions DB: "
             (PathError "stat" samplePath EACCES)))
  /\ snd (LoadOrInstallDB corruptHost emptyFS)
     = (None, samplePath,
        Some (Errorf_w "failed to install bundled versions DB: "
                (Errorf_w "bundled versions DB is invalid YAML: "
                   (errorString "yaml: unmarshal errors")))).
Proof.
  assert (Ho1 : TrimSpace (Getenv (faultyHost (Some Denied) None None None)
                             envVersionsFile) = EmptyString)
    by (vm_compute; reflexivity).
  assert (Ho2 : TrimSpace (Getenv corruptHost envVersionsFile) = EmptyString)
    by (vm_compute; reflexivity).
  destruct (LoadOrInstallDB_failures (faultyHost (Some Denied) None None None)
              emptyFS Ho1) as (_ & H2 & _).
  destruct (LoadOrInstallDB_failures corruptHost emptyFS Ho2) as (_ & _ & H3).
  split.
  - rewrite (H2 samplePath Denied); [reflexivity | vm_compute; reflexivity
                                     | reflexivity].
  - rewrite (H3 samplePath
               (Errorf_w "bundled versions DB is invalid YAML: "
                  (errorString "yaml: unmarshal errors")));
      [reflexivity | vm_compute; reflexivity | vm_compute; reflexivity
       | intros f; discriminate | vm_compute; reflexivity].
Defined.

(** X24: a registry that is at the default path is used as it is.  With
    no override set and the target there, [LoadOrInstallDB] is
    [loadDBFromPath] at the default path: the file system is left as it
    was, and a file that does not load is neither repaired nor replaced
    by the bundled document. *)
Theorem LoadOrInstallDB_existing (h : Host) (fs : FS) (path : string) :
  TrimSpace (Getenv h envVersionsFile) = EmptyString ->
  DefaultDBPath h = (path, None) ->
  os_Stat h fs path = None ->
  LoadOrInstallDB h fs
  = (fs, (fst (loadDBFromPath h fs path), path,
          snd (loadDBFromPath h fs path))).
Proof.
  intros Ho Hp Hs. unfold LoadOrInstallDB.
  rewrite Ho, Hp, Hs. cbn [String.eqb negb].
  destruct (loadDBFromPath h fs path) as [o [e|]] eqn:Hl; [|reflexivity].
  now rewrite (loadDBFromPath_error _ _ _ _ _ Hl).
Qed.

Lemma LoadOrInstallDB_existing_witness :
  os_Stat (sampleHost noon)
    {| files := {[ samplePath := schema2Doc ]}; dirs := ∅; log := [] |}
    samplePath = None
  /\ LoadOrInstallDB (sampleHost noon)
       {| files := {[ samplePath := schema2Doc ]}; dirs := ∅; log := [] |}
     = ({| files := {[ samplePath := schema2Doc ]}; dirs := ∅; log := [] |},
        (None, samplePath,
         Some (ValidationError ["unexpected schema_version=2 (expected 1)"]))).
Proof.
  assert (Ho : TrimSpace (Getenv (sampleHost noon) envVersionsFile) = EmptyString)
    by (vm_compute; reflexivity).
  assert (Hp : DefaultDBPath (sampleHost noon) = (samplePath, None))
    by (vm_compute; reflexivity).
  assert (Hs : os_Stat (sampleHost noon)
                 {| files := {[ samplePath := schema2Doc ]}; dirs := ∅;
                    log := [] |} samplePath = None)
    by (vm_compute; reflexivity).
  split; [exact Hs|].
  rewrite (LoadOrInstallDB_existing _ _ samplePath Ho Hp Hs).
  f_equal; vm_compute; reflexivity.
Defined.
